(** * Tile-based detection and georeferenced export: the notebook's pipeline

    A shallow embedding of the functions of [lettuce_detecto.ipynb]
    ([crop_image_into_tiles], [get_predictions_for_tiles], [adjust_boxes],
    [display_original_image_with_boxes], [create_georeferenced_shapefile],
    [transform_polygon]) together with the small part of Python, Pillow,
    affine, shapely, rasterio and geopandas they call.

    Python integers are [Z]; coordinates and scores, which the notebook
    receives as floating-point numbers, are exact rationals [Q] (rounding is
    not modelled); the file system is a finite map from paths to files;
    raised exceptions are the [Raise] case of [result]. *)

From Stdlib Require Import ZArith QArith Lia Lqa Ascii String.
From stdpp Require Import base option list strings gmap pretty.

Local Open Scope Z_scope.

(** ** Python: exceptions, [range], indexing, [for] loops *)

Module Py.

Inductive exn : Set :=
| ValueError
| IndexError
| OSError
| FileNotFoundError
| UnidentifiedImageError
| RasterioIOError.

Inductive result (A : Type) : Type :=
| Ok (a : A)
| Raise (e : exn).
Arguments Ok {A} a.
Arguments Raise {A} e.

Definition bind {A B} (m : result A) (k : A -> result B) : result B :=
  match m with
  | Ok a => k a
  | Raise e => Raise e
  end.

(** [range(start, stop, step)]: [ValueError] for a zero step, and
    otherwise the length CPython computes for the range object. *)
Definition range_length (start stop step : Z) : Z :=
  if 0 <? step then
    if start <? stop then (stop - start - 1) / step + 1 else 0
  else
    if stop <? start then (start - stop - 1) / (- step) + 1 else 0.

Definition range (start stop step : Z) : result (list Z) :=
  if step =? 0 then Raise ValueError
  else Ok (map (fun i : nat => start + Z.of_nat i * step)
               (seq 0 (Z.to_nat (range_length start stop step)))).

(** [xs[i]] for a non-negative index. *)
Definition index {A} (xs : list A) (i : nat) : result A :=
  match xs !! i with
  | Some x => Ok x
  | None => Raise IndexError
  end.

(** [for x in xs: body], the loop's variables threaded as a state. *)
Fixpoint for_each {A S} (xs : list A) (body : A -> S -> result S) (s : S)
  : result S :=
  match xs with
  | [] => Ok s
  | x :: xs' => bind (body x s) (for_each xs' body)
  end.

Fixpoint enumerate_from {A} (i : nat) (xs : list A) : list (nat * A) :=
  match xs with
  | [] => []
  | x :: xs' => (i, x) :: enumerate_from (S i) xs'
  end.

Definition enumerate {A} (xs : list A) : list (nat * A) := enumerate_from 0 xs.

(** [f'{n}'] for an integer. *)
Definition str (n : Z) : string := pretty n.

(** [os.path.join(a, b)] on a POSIX system. *)
Fixpoint ends_with_sep (a : string) : bool :=
  match a with
  | EmptyString => false
  | String c EmptyString => Ascii.eqb c "/"%char
  | String _ a' => ends_with_sep a'
  end.

Definition starts_with_sep (b : string) : bool :=
  match b with
  | String c _ => Ascii.eqb c "/"%char
  | EmptyString => false
  end.

Definition path_join (a b : string) : string :=
  if starts_with_sep b then b
  else if (String.eqb a "" || ends_with_sep a)%bool then a +:+ b
  else a +:+ "/" +:+ b.

End Py.

Import Py.

Notation "'let!' x ':=' m 'in' k" := (Py.bind m (fun x => k))
  (at level 10, x pattern, m at level 100, k at level 200).

(** ** The files the notebook reads and writes *)

(** A coordinate reference system, named by its authority code
    (["EPSG:32611"]). *)
Definition CRS : Set := string.

(** [affine.Affine(a, b, c, d, e, f)]: the six coefficients of a raster's
    pixel-to-geographic transform. *)
Module Affine.

Record t : Set := mk { a : Q; b : Q; c : Q; d : Q; e : Q; f : Q }.

(** [transform * (x, y)] *)
Definition apply (T : t) (p : Q * Q) : Q * Q :=
  let '(x, y) := p in
  (a T * x + b T * y + c T, d T * x + e T * y + f T)%Q.

(** [Affine.identity()], what rasterio reports for a file that carries no
    georeferencing. *)
Definition identity : t := mk 1 0 0 0 1 0.

(** [Affine.translation(xoff, yoff)] *)
Definition translation (xoff yoff : Q) : t := mk 1 0 xoff 0 1 yoff.

(** [T1 * T2]: the composition, [T2] applied first. *)
Definition compose (T1 T2 : t) : t :=
  mk (a T1 * a T2 + b T1 * d T2) (a T1 * b T2 + b T1 * e T2)
     (a T1 * c T2 + b T1 * f T2 + c T1)
     (d T1 * a T2 + e T1 * d T2) (d T1 * b T2 + e T1 * e T2)
     (d T1 * c T2 + e T1 * f T2 + f T1).

End Affine.

(** Pillow images: size, mode and the samples of each pixel. *)
Module PIL.

Record Image : Type := mkImage {
  size : Z * Z;
  mode : string;
  getpixel : Z * Z -> list Z
}.

(** [image.crop(box)] for a box inside the image. *)
Definition crop (image : Image) (box : Z * Z * Z * Z) : Image :=
  let '(x0, y0, x1, y1) := box in
  {| size := (x1 - x0, y1 - y0);
     mode := mode image;
     getpixel := fun '(x, y) => getpixel image (x + x0, y + y0) |}.

(** [image.convert(m)]: from RGBA to RGB the alpha sample of every pixel
    is discarded. No other conversion is reached by the notebook, and the
    samples are left as they are for them. *)
Definition convert_pixel (from to : string) (px : list Z) : list Z :=
  if (String.eqb from "RGBA" && String.eqb to "RGB")%bool then take 3 px
  else px.

Definition convert (image : Image) (m : string) : Image :=
  {| size := size image;
     mode := m;
     getpixel := fun p => convert_pixel (mode image) m (getpixel image p) |}.

(** The modes Pillow's JPEG encoder accepts, each with the mode the file
    has when it is opened again (one, three or four components). Every
    other mode makes [save] raise [OSError]. *)
Definition jpeg_mode (m : string) : option string :=
  if String.eqb m "1" then Some "L"%string
  else if String.eqb m "L" then Some "L"%string
  else if String.eqb m "RGB" then Some "RGB"%string
  else if String.eqb m "RGBX" then Some "RGB"%string
  else if String.eqb m "CMYK" then Some "CMYK"%string
  else if String.eqb m "YCbCr" then Some "RGB"%string
  else None.

End PIL.

(** What the transformed geometries are: a polygon is the coordinate
    sequence of its exterior ring. *)
Module Shapely.

Definition Polygon : Set := list (Q * Q).

(** [shapely.geometry.box(minx, miny, maxx, maxy)], counter-clockwise from
    the corner [(maxx, miny)], closed. *)
Definition box (minx miny maxx maxy : Q) : Polygon :=
  [(maxx, miny); (maxx, maxy); (minx, maxy); (minx, miny); (maxx, miny)].

End Shapely.

(** One record of the export: the dictionary with the keys ['geometry'],
    ['label'] and ['score']. *)
Record row : Set := mkRow {
  geometry : Shapely.Polygon;
  label : string;
  score : Q
}.

(** A written vector layer: its features and the CRS it declares. *)
Record Layer : Set := mkLayer {
  features : list row;
  layer_crs : option CRS
}.

(** A file is a raster (an image with the CRS and transform rasterio reads
    from it) or a vector layer. Directories are not part of the store. *)
Inductive file : Type :=
| RasterFile (image : PIL.Image) (crs : option CRS) (transform : Affine.t)
| VectorFile (layer : Layer).

Abbreviation store := (gmap string file).

Module IO.

(** [Image.open(path)] *)
Definition Image_open (path : string) (fs : store) : result PIL.Image :=
  match fs !! path with
  | Some (RasterFile image _ _) => Ok image
  | Some (VectorFile _) => Raise UnidentifiedImageError
  | None => Raise FileNotFoundError
  end.

(** [tile.save(path, 'JPEG')]: the file holds the image in the mode a JPEG
    has, without georeferencing. The encoder's loss on the samples, its
    size limit and failures of the disk are not modelled. *)
Definition Image_save_jpeg (tile : PIL.Image) (path : string) (fs : store)
  : result store :=
  match PIL.jpeg_mode (PIL.mode tile) with
  | Some m =>
      Ok (<[path := RasterFile (PIL.mkImage (PIL.size tile) m (PIL.getpixel tile))
                               None Affine.identity]> fs)
  | None => Raise OSError
  end.

(** [rasterio.open(path)], giving [src.crs] and [src.transform]. *)
Definition rasterio_open (path : string) (fs : store)
  : result (option CRS * Affine.t) :=
  match fs !! path with
  | Some (RasterFile _ crs transform) => Ok (crs, transform)
  | _ => Raise RasterioIOError
  end.

End IO.

(** ** Step 1: crop the large image into JPEG tiles *)

(** The variables the two loops of [crop_image_into_tiles] update. *)
Record crop_state : Type := mkCrop {
  tile_num : Z;
  tiles_with_coordinates : list (string * (Z * Z));
  files : store
}.

(** The body of the inner loop, for the offsets [y] and [x]. *)
Definition crop_body (image : PIL.Image) (img_width img_height tile_size : Z)
    (output_folder : string) (y x : Z) (s : crop_state) : result crop_state :=
  let box := (x, y, Z.min (x + tile_size) img_width,
                    Z.min (y + tile_size) img_height) in
  let tile := PIL.crop image box in
  let tile :=
    if String.eqb (PIL.mode tile) "RGBA" then PIL.convert tile "RGB" else tile in
  let tile_path :=
    Py.path_join output_folder ("tile_" +:+ Py.str (tile_num s) +:+ ".jpg") in
  let! fs := IO.Image_save_jpeg tile tile_path (files s) in
  Ok {| tile_num := tile_num s + 1;
        tiles_with_coordinates := tiles_with_coordinates s ++ [(tile_path, (x, y))];
        files := fs |}.

(** The folder is created when it is missing; directories are not part of
    the store, so that statement has no counterpart here, and neither has
    the error it raises for an empty folder name. *)
Definition crop_image_into_tiles (image_path : string) (tile_size : Z)
    (output_folder : string) (fs : store)
  : result (list (string * (Z * Z)) * store) :=
  let! image := IO.Image_open image_path fs in
  let '(img_width, img_height) := PIL.size image in
  let! ys := Py.range 0 img_height tile_size in
  let! s := Py.for_each ys (fun y s =>
              let! xs := Py.range 0 img_width tile_size in
              Py.for_each xs (crop_body image img_width img_height tile_size
                                        output_folder y) s)
              (mkCrop 0 [] fs) in
  Ok (tiles_with_coordinates s, files s).

(** ** Step 2: run the detector on each tile *)

(** A box [(x_min, y_min, x_max, y_max)]. *)
Definition bbox : Set := Q * Q * Q * Q.

(** What the detector returns for one image: labels, boxes and scores, one
    of each per detected object. *)
Definition prediction : Set := list string * list bbox * list Q.

(** One entry of [all_predictions]:
    [(labels, boxes, scores, tile_x, tile_y)]. *)
Definition tile_prediction : Set := list string * list bbox * list Q * Z * Z.

Definition get_predictions_for_tiles
    (tiles_with_coordinates : list (string * (Z * Z)))
    (model : PIL.Image -> prediction) (threshold : Q) (fs : store)
  : result (list tile_prediction) :=
  Py.for_each tiles_with_coordinates
    (fun '(tile_path, (tile_x, tile_y)) all_predictions =>
       let! tile := IO.Image_open tile_path fs in
       let '(labels, boxes, scores) := model tile in
       Ok (all_predictions ++ [(labels, boxes, scores, tile_x, tile_y)]))
    [].

(** ** Step 3: adjust and display the predictions *)

Definition adjust_boxes (boxes : list bbox) (tile_x tile_y : Z) : list bbox :=
  foldl (fun adjusted_boxes box =>
           let '(x_min, y_min, x_max, y_max) := box in
           let adjusted_box :=
             (x_min + inject_Z tile_x, y_min + inject_Z tile_y,
              x_max + inject_Z tile_x, y_max + inject_Z tile_y)%Q in
           adjusted_boxes ++ [adjusted_box])
        [] boxes.

(** [s >= threshold] and [s > threshold] on scores. *)
Definition score_ge (s threshold : Q) : bool := Qle_bool threshold s.
Definition score_gt (s threshold : Q) : bool := negb (Qle_bool s threshold).

(** [patches.Rectangle((x, y), width, height, ...)] *)
Record Rectangle : Set := mkRectangle {
  xy : Q * Q;
  width : Q;
  height : Q
}.

(** The function returns the rectangles it adds to the axes, in order. *)
Definition display_original_image_with_boxes (image_path : string)
    (all_predictions : list tile_prediction) (threshold : Q) (fs : store)
  : result (list Rectangle) :=
  let! image := IO.Image_open image_path fs in
  Py.for_each all_predictions
    (fun '(labels, boxes, scores, tile_x, tile_y) patches =>
       let adjusted_boxes := adjust_boxes boxes tile_x tile_y in
       Py.for_each (Py.enumerate adjusted_boxes)
         (fun '(i, box) patches =>
            let! s := Py.index scores i in
            if score_gt s threshold then
              let '(x_min, y_min, x_max, y_max) := box in
              let rect := mkRectangle (x_min, y_min) (x_max - x_min) (y_max - y_min) in
              Ok (patches ++ [rect])
            else Ok patches)
         patches)
    [].

(** ** Export: a georeferenced shapefile from the predictions *)

Definition transform_polygon (geometry : Shapely.Polygon) (transform : Affine.t)
  : result Shapely.Polygon :=
  let transformed_coords := map (Affine.apply transform) geometry in
  let! p0 := Py.index transformed_coords 0 in
  let! p2 := Py.index transformed_coords 2 in
  Ok (Shapely.box (fst p0) (snd p0) (fst p2) (snd p2)).

(** geopandas: a frame is its records and the CRS of its geometry column. *)
Module Geopandas.

Record GeoDataFrame : Set := mkFrame {
  rows : list row;
  crs : option CRS
}.

(** [gpd.GeoDataFrame(data, crs=c)]: a list of records without any record
    has no column, hence no geometry column to give the CRS to, and the
    constructor raises [ValueError]. *)
Definition new (data : list row) (c : CRS) : result GeoDataFrame :=
  match data with
  | [] => Raise ValueError
  | _ :: _ => Ok (mkFrame data (Some c))
  end.

(** [gdf['geometry'] = gdf['geometry'].apply(func)]; the CRS of the column
    is kept. *)
Definition apply_geometry (func : Shapely.Polygon -> result Shapely.Polygon)
    (gdf : GeoDataFrame) : result GeoDataFrame :=
  let! rs := Py.for_each (rows gdf)
               (fun r acc =>
                  let! g := func (geometry r) in
                  Ok (acc ++ [mkRow g (label r) (score r)]))
               [] in
  Ok (mkFrame rs (crs gdf)).

(** [gdf.set_crs(c, inplace=True)], with [allow_override] left at its
    default: no CRS to set, or a frame that already has another CRS,
    raises [ValueError]; the geometries are never touched. *)
Definition set_crs (c : option CRS) (gdf : GeoDataFrame) : result GeoDataFrame :=
  match c with
  | None => Raise ValueError
  | Some c' =>
      match crs gdf with
      | Some c0 => if String.eqb c0 c' then Ok gdf else Raise ValueError
      | None => Ok (mkFrame (rows gdf) (Some c'))
      end
  end.

(** [gdf.to_file(path, driver="ESRI Shapefile")]: the layer declares the
    CRS of the frame, the geometries are written as they are. The store
    holds the layer under [path] alone: the side files the driver writes
    beside it ([.shx], [.dbf], [.prj], [.cpg]), the vertex order the driver
    gives a ring, and failures of the disk are not modelled. *)
Definition to_file (path : string) (gdf : GeoDataFrame) (fs : store)
  : result store :=
  Ok (<[path := VectorFile (mkLayer (rows gdf) (crs gdf))]> fs).

End Geopandas.

(** The loop that collects the retained boxes of one tile. The boxes are
    values here: [x_min += tile_x] gives the local name a new value. On the
    tensors the detector returns the addition is made in place and shifts
    the boxes of [all_predictions] for any later call; that effect on the
    caller's data is not modelled, the result of one call is as below. *)
Definition collect_tile (threshold : Q) (tp : tile_prediction)
    (polygons : list row) : result (list row) :=
  let '(labels, boxes, scores, tile_x, tile_y) := tp in
  Py.for_each (Py.enumerate boxes)
    (fun '(i, box_coords) polygons =>
       let! s := Py.index scores i in
       if score_ge s threshold then
         let '(x_min, y_min, x_max, y_max) := box_coords in
         let x_min := (x_min + inject_Z tile_x)%Q in
         let y_min := (y_min + inject_Z tile_y)%Q in
         let x_max := (x_max + inject_Z tile_x)%Q in
         let y_max := (y_max + inject_Z tile_y)%Q in
         let polygon := Shapely.box x_min y_min x_max y_max in
         let! l := Py.index labels i in
         Ok (polygons ++ [mkRow polygon l s])
       else Ok polygons)
    polygons.

Definition create_georeferenced_shapefile
    (all_predictions : list tile_prediction) (image_path output_shapefile : string)
    (threshold : Q) (fs : store) : result store :=
  let! (crs, transform) := IO.rasterio_open image_path fs in
  let! polygons := Py.for_each all_predictions (collect_tile threshold) [] in
  let! gdf_pixel := Geopandas.new polygons "EPSG:32611" in
  let! gdf_pixel := Geopandas.apply_geometry
                      (fun geom => transform_polygon geom transform) gdf_pixel in
  let! gdf_pixel := Geopandas.set_crs crs gdf_pixel in
  Geopandas.to_file output_shapefile gdf_pixel fs.

(** ** Reference definitions for the tile grid *)

(** The offsets "0, step, 2·step, … while below the limit". *)
Fixpoint offsets_while (fuel : nat) (o step limit : Z) : list Z :=
  match fuel with
  | O => []
  | S fuel' =>
      if o <? limit then o :: offsets_while fuel' (o + step) step limit else []
  end.

Definition grid_offsets (step limit : Z) : list Z :=
  offsets_while (Z.to_nat limit) 0 step limit.

(** The grid as the specification words it: row-major over [oy], then
    [ox], every box clipped at the raster boundary. *)
Definition grid_boxes (W H t : Z) : list (Z * Z * Z * Z) :=
  oy ← grid_offsets t H;
  ox ← grid_offsets t W;
  [(ox, oy, Z.min (ox + t) W, Z.min (oy + t) H)].

(** Pixel [p] lies in the half-open box [b]. *)
Definition in_box (p : Z * Z) (b : Z * Z * Z * Z) : Prop :=
  let '(x0, y0, x1, y1) := b in x0 <= p.1 < x1 ∧ y0 <= p.2 < y1.

Definition box_origin (b : Z * Z * Z * Z) : Z * Z := (b.1.1.1, b.1.1.2).

(** The pixels of the raster a returned tile covers: the size of the file
    saved at its path, placed at its recorded origin. *)
Definition tile_extent (fs : store) (tile : string * (Z * Z))
  : option (Z * Z * Z * Z) :=
  match fs !! tile.1 with
  | Some (RasterFile im _ _) =>
      let '(w, h) := PIL.size im in
      let '(x, y) := tile.2 in
      Some (x, y, x + w, y + h)
  | _ => None
  end.

(** The crop rectangle of the tile at offset [(x, y)], the tile as it is
    saved (cropped, and converted when its mode is RGBA), and its path. *)
Definition tile_box (img_width img_height tile_size x y : Z) : Z * Z * Z * Z :=
  (x, y, Z.min (x + tile_size) img_width, Z.min (y + tile_size) img_height).

Definition tile_image (image : PIL.Image) (box : Z * Z * Z * Z) : PIL.Image :=
  let tile := PIL.crop image box in
  if String.eqb (PIL.mode tile) "RGBA" then PIL.convert tile "RGB" else tile.

Definition tile_name (n : Z) : string := "tile_" +:+ Py.str n +:+ ".jpg".

Definition tile_path (output_folder : string) (n : Z) : string :=
  Py.path_join output_folder (tile_name n).

(** The file written for the tile of box [b], when the encoder takes it. *)
Definition stored_tile (image : PIL.Image) (b : Z * Z * Z * Z) : option file :=
  let tile := tile_image image b in
  m ← PIL.jpeg_mode (PIL.mode tile);
  Some (RasterFile (PIL.mkImage (PIL.size tile) m (PIL.getpixel tile))
                   None Affine.identity).

(** The mode a tile of an image of mode [m] is saved in. *)
Definition saved_mode (m : string) : string :=
  if String.eqb m "RGBA" then "RGB"%string else m.

(** One iteration of the cropping loops, on the box rather than on its
    offsets. *)
Definition save_box (image : PIL.Image) (output_folder : string)
    (b : Z * Z * Z * Z) (s : crop_state) : result crop_state :=
  match stored_tile image b with
  | Some f =>
      Ok {| tile_num := tile_num s + 1;
            tiles_with_coordinates :=
              tiles_with_coordinates s ++
              [(tile_path output_folder (tile_num s), box_origin b)];
            files := <[tile_path output_folder (tile_num s) := f]> (files s) |}
  | None => Raise OSError
  end.

(** ** Reference definitions for the detections *)

(** A detection in full-image pixel coordinates. *)
Record detection : Set := mkDetection {
  d_label : string;
  d_box : bbox;
  d_score : Q
}.

(** The remap the specification calls [to_full_image]. *)
Definition to_full_image (box : bbox) (tile_x tile_y : Z) : bbox :=
  let '(x_min, y_min, x_max, y_max) := box in
  (x_min + inject_Z tile_x, y_min + inject_Z tile_y,
   x_max + inject_Z tile_x, y_max + inject_Z tile_y)%Q.

Fixpoint zip3 {A B C} (xs : list A) (ys : list B) (zs : list C)
  : list (A * B * C) :=
  match xs, ys, zs with
  | x :: xs', y :: ys', z :: zs' => (x, y, z) :: zip3 xs' ys' zs'
  | _, _, _ => []
  end.

(** The detector returns parallel sequences. *)
Definition well_formed (tp : tile_prediction) : Prop :=
  let '(labels, boxes, scores, _, _) := tp in
  length labels = length boxes ∧ length scores = length boxes.

Definition tile_detections (tp : tile_prediction) : list detection :=
  let '(labels, boxes, scores, tile_x, tile_y) := tp in
  (λ '(l, b, s), mkDetection l (to_full_image b tile_x tile_y) s)
    <$> zip3 labels boxes scores.

(** Every detection of the run, tile by tile and in each tile's order. *)
Definition all_detections (all_predictions : list tile_prediction)
  : list detection :=
  all_predictions ≫= tile_detections.

(** The detections with [score >= threshold], and those with
    [score > threshold]. *)
Definition retained (threshold : Q) (all_predictions : list tile_prediction)
  : list detection :=
  List.filter (λ d, score_ge (d_score d) threshold) (all_detections all_predictions).

Definition displayed (threshold : Q) (all_predictions : list tile_prediction)
  : list detection :=
  List.filter (λ d, score_gt (d_score d) threshold) (all_detections all_predictions).

(** The record collected for a detection, in pixel coordinates. *)
Definition row_of (d : detection) : row :=
  let '(x_min, y_min, x_max, y_max) := d_box d in
  mkRow (Shapely.box x_min y_min x_max y_max) (d_label d) (d_score d).

(** The rectangle drawn for a detection. *)
Definition rect_of (d : detection) : Rectangle :=
  let '(x_min, y_min, x_max, y_max) := d_box d in
  mkRectangle (x_min, y_min) (x_max - x_min) (y_max - y_min).

(** Polygons whose coordinates are equal as rational numbers. *)
Definition point_eq (p q : Q * Q) : Prop := (p.1 == q.1)%Q ∧ (p.2 == q.2)%Q.
Definition polygon_eq (g1 g2 : Shapely.Polygon) : Prop := Forall2 point_eq g1 g2.

(** A written feature is the collected record with its geometry taken
    through [transform_polygon], nothing else changed. *)
Definition georeferenced (transform : Affine.t) (r f : row) : Prop :=
  transform_polygon (geometry r) transform = Ok (geometry f) ∧
  label f = label r ∧ score f = score r.

(** The detections of a tile from index [i] on. *)
Definition detections_from (labels : list string) (scores : list Q)
    (tile_x tile_y : Z) (i : nat) (boxes : list bbox) : list detection :=
  (λ '(l, b, s), mkDetection l (to_full_image b tile_x tile_y) s)
    <$> zip3 (drop i labels) boxes (drop i scores).

(** The bodies of the inner loops. *)
Definition collect_body (threshold : Q) (labels : list string) (scores : list Q)
    (tile_x tile_y : Z) (ib : nat * bbox) (polygons : list row)
  : result (list row) :=
  let '(i, box_coords) := ib in
  let! s := Py.index scores i in
  if score_ge s threshold then
    let '(x_min, y_min, x_max, y_max) := box_coords in
    let x_min := (x_min + inject_Z tile_x)%Q in
    let y_min := (y_min + inject_Z tile_y)%Q in
    let x_max := (x_max + inject_Z tile_x)%Q in
    let y_max := (y_max + inject_Z tile_y)%Q in
    let polygon := Shapely.box x_min y_min x_max y_max in
    let! l := Py.index labels i in
    Ok (polygons ++ [mkRow polygon l s])
  else Ok polygons.

Definition display_body (threshold : Q) (scores : list Q) (ib : nat * bbox)
    (patches : list Rectangle) : result (list Rectangle) :=
  let '(i, box) := ib in
  let! s := Py.index scores i in
  if score_gt s threshold then
    let '(x_min, y_min, x_max, y_max) := box in
    let rect := mkRectangle (x_min, y_min) (x_max - x_min) (y_max - y_min) in
    Ok (patches ++ [rect])
  else Ok patches.

(** The feature written for a detection: the two ring corners
    [transform_polygon] reads, taken through the raster's transform. *)
Definition geo_row (transform : Affine.t) (d : detection) : row :=
  let '(x_min, y_min, x_max, y_max) := d_box d in
  let p0 := Affine.apply transform (x_max, y_min) in
  let p2 := Affine.apply transform (x_min, y_max) in
  mkRow (Shapely.box p0.1 p0.2 p2.1 p2.2) (d_label d) (d_score d).

Definition box_polygon (b : bbox) : Shapely.Polygon :=
  let '(x_min, y_min, x_max, y_max) := b in Shapely.box x_min y_min x_max y_max.

(** ** Sample inputs *)

Module Sample.

(** A 2000×1500 RGBA orthomosaic in UTM zone 11N, one centimetre a pixel. *)
Definition ortho : PIL.Image :=
  PIL.mkImage (2000, 1500) "RGBA" (λ '(x, y), [x; y; 7; 255]).

Definition utm : Affine.t := Affine.mk 0.01 0 500000 0 (-0.01) 4000000.

Definition disk : store :=
  {[ "ortho.tif"%string := RasterFile ortho (Some "EPSG:32611"%string) utm ]}.



(** One tile with three detections, scores 0.10, 0.15 and 0.20. *)
Definition three : list tile_prediction :=
  [(["lettuce"; "lettuce"; "lettuce"]%string,
    [(10, 20, 30, 40); (1, 2, 3, 4); (5, 6, 7, 8)]%Q,
    [0.10; 0.15; 0.20]%Q, 1024, 0)].

(** One tile with a single detection, its score on the threshold 0.15. *)
Definition boundary : list tile_prediction :=
  [(["lettuce"%string], [(10, 20, 30, 40)%Q], [0.15%Q], 1024, 0)].

End Sample.

(** ** Further reference definitions *)

(** The image a saved tile opens to. *)
Definition reopened_tile (image : PIL.Image) (b : Z * Z * Z * Z)
  : option PIL.Image :=
  match stored_tile image b with
  | Some (RasterFile im _ _) => Some im
  | _ => None
  end.

(** Boxes whose coordinates are equal as rational numbers. *)
Definition bbox_eq (b1 b2 : bbox) : Prop :=
  let '(x_min1, y_min1, x_max1, y_max1) := b1 in
  let '(x_min2, y_min2, x_max2, y_max2) := b2 in
  (x_min1 == x_min2 ∧ y_min1 == y_min2 ∧ x_max1 == x_max2 ∧ y_max1 == y_max2)%Q.

(** Two boxes of the same width and height. *)
Definition same_extent (b1 b2 : bbox) : Prop :=
  let '(x_min1, y_min1, x_max1, y_max1) := b1 in
  let '(x_min2, y_min2, x_max2, y_max2) := b2 in
  (x_max1 - x_min1 == x_max2 - x_min2 ∧ y_max1 - y_min1 == y_max2 - y_min2)%Q.

(** A well-ordered box inside the pixel rectangle [x0, x1] × [y0, y1]. *)
Definition bbox_within (b : bbox) (r : Z * Z * Z * Z) : Prop :=
  let '(x_min, y_min, x_max, y_max) := b in
  let '(x0, y0, x1, y1) := r in
  (inject_Z x0 <= x_min ∧ x_min <= x_max ∧ x_max <= inject_Z x1 ∧
   inject_Z y0 <= y_min ∧ y_min <= y_max ∧ y_max <= inject_Z y1)%Q.

(** Two entries of [all_predictions] that differ in their labels only. *)
Definition same_but_labels (p q : tile_prediction) : Prop :=
  let '(_, boxes1, scores1, tile_x1, tile_y1) := p in
  let '(_, boxes2, scores2, tile_x2, tile_y2) := q in
  boxes1 = boxes2 ∧ scores1 = scores2 ∧ tile_x1 = tile_x2 ∧ tile_y1 = tile_y2.

(** A tile for which the detector gave fewer scores than boxes. *)
Definition short_scores (tp : tile_prediction) : Prop :=
  let '(_, boxes, scores, _, _) := tp in (length scores < length boxes)%nat.

(** ** The notebook's cells around the pipeline *)

(** A project of the workspace, with the fields the notebook prints. *)
Module D2S.

Record Project : Set := mkProject {
  id : string;
  title : string;
  description : string
}.

End D2S.

(** The cell that finds the project by its id: [selected_project] stays
    [None] until a project matches, and the first match ends the loop. *)
Fixpoint select_project (projects : list D2S.Project) (project_id : string)
  : option D2S.Project :=
  match projects with
  | [] => None
  | project :: projects' =>
      if String.eqb (D2S.id project) project_id then Some project
      else select_project projects' project_id
  end.

(** [sub in s] on strings. *)
Fixpoint str_contains (sub s : string) : bool :=
  if String.prefix sub s then true
  else match s with
       | EmptyString => false
       | String _ s' => str_contains sub s'
       end.

(** A parameter of the network: its name and its [requires_grad] flag. *)
Definition parameter : Set := string * bool.

(** The cell that leaves only the region proposal network and the ROI
    heads trainable. The state of the loop is what has been printed and the
    parameters as updated so far. *)
Definition freeze_body (np : parameter) (s : list parameter * list parameter)
  : list parameter * list parameter :=
  let '(name, requires_grad) := np in
  let '(printed, updated) := s in
  let printed := printed ++ [(name, requires_grad)] in
  if (negb (str_contains "roi_heads" name) && negb (str_contains "rpn" name))%bool
  then (printed, updated ++ [(name, false)])
  else (printed, updated ++ [(name, requires_grad)]).

Definition freeze_all_but_heads (named_parameters : list parameter)
  : list parameter * list parameter :=
  foldl (λ s np, freeze_body np s) ([], []) named_parameters.

(** ** Further sample inputs *)

Module Sample2.

(** A palette image and a store holding it. *)
Definition palette : PIL.Image := PIL.mkImage (4, 4) "P" (λ '(x, y), [x + 4 * y]).

Definition palette_disk : store :=
  {[ "palette.tif"%string := RasterFile palette None Affine.identity ]}.

(** The sample orthomosaic in UTM zone 12N. *)
Definition zone12_disk : store :=
  {[ "ortho.tif"%string :=
       RasterFile Sample.ortho (Some "EPSG:32612"%string) Sample.utm ]}.

(** A detector that finds one object in every tile. *)
Definition one_lettuce (tile : PIL.Image) : prediction :=
  (["lettuce"%string], [(10, 20, 30, 40)%Q], [0.9%Q]).

(** One tile with two boxes and a single score. *)
Definition ragged : list tile_prediction :=
  [(["lettuce"; "lettuce"]%string, [(10, 20, 30, 40); (1, 2, 3, 4)]%Q,
    [0.9%Q], 0, 0)].

Definition projects : list D2S.Project :=
  [D2S.mkProject "46669dd1" "Maricopa" "gantry";
   D2S.mkProject "cfb77a4a" "Yuma" "lettuce field";
   D2S.mkProject "cfb77a4a" "Yuma copy" "duplicate id"]%string.

Definition network : list parameter :=
  [("backbone.body.conv1.weight", true); ("rpn.head.conv.weight", true);
   ("roi_heads.box_predictor.cls_score.bias", true);
   ("backbone.fpn.inner_blocks.0.weight", false)]%string.

End Sample2.

(** * Properties *)

(** ** The tile grid *)

Section range_facts.
Variables (step : Z).
Hypothesis step_pos : 0 < step.

Lemma range_length_step (o limit : Z) :
  o < limit →
  Py.range_length o limit step = 1 + Py.range_length (o + step) limit step.
Proof.
  intros Hlt. unfold Py.range_length.
  destruct (Z.ltb_spec 0 step) as [_|?]; [|lia].
  destruct (Z.ltb_spec o limit) as [_|?]; [|lia].
  destruct (Z.ltb_spec (o + step) limit) as [Hlt'|Hge].
  - replace (limit - o - 1) with ((limit - (o + step) - 1) + 1 * step) by lia.
    rewrite Z.div_add by lia. lia.
  - rewrite Z.div_small by lia. lia.
Qed.

Lemma range_length_nonneg (o limit : Z) : 0 <= Py.range_length o limit step.
Proof.
  unfold Py.range_length.
  destruct (Z.ltb_spec 0 step) as [_|?]; [|lia].
  destruct (Z.ltb_spec o limit); [|lia].
  assert (0 <= (limit - o - 1) / step) by (apply Z.div_pos; lia). lia.
Qed.

Lemma offsets_while_range (fuel : nat) (o limit : Z) :
  limit - o <= Z.of_nat fuel →
  offsets_while fuel o step limit =
  (λ i : nat, o + Z.of_nat i * step) <$>
    seq 0 (Z.to_nat (Py.range_length o limit step)).
Proof.
  revert o. induction fuel as [|fuel IH]; intros o Hfuel; simpl.
  - unfold Py.range_length.
    destruct (Z.ltb_spec 0 step); [|lia].
    destruct (Z.ltb_spec o limit); [lia|done].
  - destruct (Z.ltb_spec o limit) as [Hlt|Hge].
    + rewrite range_length_step by done.
      pose proof (range_length_nonneg (o + step) limit).
      rewrite Z2Nat.inj_add by lia. simpl.
      rewrite IH by lia. f_equal; [lia|].
      rewrite <- fmap_S_seq, <- list_fmap_compose.
      apply list_fmap_ext. intros _ i _. simpl. lia.
    + unfold Py.range_length.
      destruct (Z.ltb_spec 0 step); [|lia].
      destruct (Z.ltb_spec o limit); [lia|done].
Qed.

(** Python's [range(0, limit, step)] enumerates the offsets of the grid. *)
Lemma range_grid_offsets (limit : Z) :
  Py.range 0 limit step = Ok (grid_offsets step limit).
Proof.
  unfold Py.range, grid_offsets.
  destruct (Z.eqb_spec step 0); [lia|].
  rewrite offsets_while_range by lia. done.
Qed.

Lemma elem_of_grid_offsets (limit z : Z) :
  z ∈ grid_offsets step limit ↔ ∃ k : Z, 0 <= k ∧ z = k * step ∧ z < limit.
Proof.
  unfold grid_offsets. rewrite offsets_while_range by lia.
  rewrite list_elem_of_fmap. setoid_rewrite elem_of_seq.
  pose proof (range_length_nonneg 0 limit) as Hn.
  assert (Hchar : ∀ i : nat,
    (i < Z.to_nat (Py.range_length 0 limit step))%nat ↔ Z.of_nat i * step < limit).
  { intros i. unfold Py.range_length in *.
    destruct (Z.ltb_spec 0 step); [|lia].
    destruct (Z.ltb_spec 0 limit) as [Hl|Hl].
    - split.
      + intros Hi.
        assert (Z.of_nat i <= (limit - 0 - 1) / step) as Hle by lia.
        pose proof (Z.mul_div_le (limit - 0 - 1) step ltac:(lia)). nia.
      + intros Hi.
        assert (Z.of_nat i <= (limit - 0 - 1) / step)
          by (apply Z.div_le_lower_bound; lia).
        lia.
    - split; [lia|]. intros. nia. }
  split.
  - intros (i & -> & Hi). exists (Z.of_nat i).
    split; [lia|]. split; [lia|]. apply Hchar. lia.
  - intros (k & Hk & -> & Hlim). exists (Z.to_nat k).
    split; [lia|]. split; [lia|]. simpl. apply Hchar. lia.
Qed.

Lemma NoDup_grid_offsets (limit : Z) : NoDup (grid_offsets step limit).
Proof.
  unfold grid_offsets. rewrite offsets_while_range by lia.
  apply NoDup_fmap_2_strong; [|apply NoDup_seq].
  intros i j _ _ Heq. nia.
Qed.
End range_facts.

Section grid_facts.
Variables (W H t : Z).
Hypothesis t_pos : 0 < t.

Lemma elem_of_grid_boxes (b : Z * Z * Z * Z) :
  b ∈ grid_boxes W H t ↔
  ∃ i j : Z, 0 <= i ∧ 0 <= j ∧ i * t < W ∧ j * t < H ∧
             b = (i * t, j * t, Z.min (i * t + t) W, Z.min (j * t + t) H).
Proof.
  unfold grid_boxes. rewrite list_elem_of_bind. split.
  - intros (oy & Hb & Hoy). apply list_elem_of_bind in Hb as (ox & Hb & Hox).
    apply list_elem_of_singleton in Hb as ->.
    apply elem_of_grid_offsets in Hoy as (j & ? & -> & ?); [|done].
    apply elem_of_grid_offsets in Hox as (i & ? & -> & ?); [|done].
    exists i, j. done.
  - intros (i & j & ? & ? & ? & ? & ->). exists (j * t). split.
    + apply list_elem_of_bind. exists (i * t). split; [by left|].
      apply elem_of_grid_offsets; [done|]. by exists i.
    + apply elem_of_grid_offsets; [done|]. by exists j.
Qed.

Lemma NoDup_grid_boxes : NoDup (grid_boxes W H t).
Proof.
  unfold grid_boxes. apply NoDup_bind.
  - intros y1 y2 b _ _ Hb1 Hb2.
    apply list_elem_of_bind in Hb1 as (x1 & Hb1 & _).
    apply list_elem_of_bind in Hb2 as (x2 & Hb2 & _).
    apply list_elem_of_singleton in Hb1, Hb2. congruence.
  - intros y _. apply NoDup_bind.
    + intros x1 x2 b _ _ Hb1 Hb2.
      apply list_elem_of_singleton in Hb1, Hb2. congruence.
    + intros. apply NoDup_singleton.
    + by apply NoDup_grid_offsets.
  - by apply NoDup_grid_offsets.
Qed.

(** No gap and no padding: a pixel is in some box exactly when it is in
    the raster. *)
Lemma grid_boxes_cover (p : Z * Z) :
  (0 <= p.1 < W ∧ 0 <= p.2 < H) ↔ ∃ b, b ∈ grid_boxes W H t ∧ in_box p b.
Proof.
  destruct p as [px py]. simpl. split.
  - intros [Hx Hy].
    pose proof (Z.mul_div_le px t t_pos). pose proof (Z.mul_div_le py t t_pos).
    pose proof (Z.mul_succ_div_gt px t t_pos).
    pose proof (Z.mul_succ_div_gt py t t_pos).
    assert (0 <= px / t) by (apply Z.div_pos; lia).
    assert (0 <= py / t) by (apply Z.div_pos; lia).
    eexists. split.
    + apply elem_of_grid_boxes. exists (px / t), (py / t).
      repeat split; [done|done|nia|nia].
    + simpl. lia.
  - intros (b & Hb & Hin).
    apply elem_of_grid_boxes in Hb as (i & j & ? & ? & ? & ? & ->).
    simpl in Hin. nia.
Qed.

(** No overlap: a pixel is in at most one box. *)
Lemma grid_boxes_disjoint (p : Z * Z) (b1 b2 : Z * Z * Z * Z) :
  b1 ∈ grid_boxes W H t → b2 ∈ grid_boxes W H t →
  in_box p b1 → in_box p b2 → b1 = b2.
Proof.
  intros Hb1 Hb2.
  apply elem_of_grid_boxes in Hb1 as (i1 & j1 & ? & ? & ? & ? & ->).
  apply elem_of_grid_boxes in Hb2 as (i2 & j2 & ? & ? & ? & ? & ->).
  destruct p as [px py]. simpl. intros Hin1 Hin2.
  assert (i1 = i2) as -> by nia. assert (j1 = j2) as -> by nia. done.
Qed.
End grid_facts.

(** ** Loops *)

Lemma for_each_app {A S} (xs ys : list A) (body : A → S → result S) (s : S) :
  Py.for_each (xs ++ ys) body s =
  Py.bind (Py.for_each xs body s) (Py.for_each ys body).
Proof.
  revert s. induction xs as [|x xs IH]; intros s; simpl; [done|].
  destruct (body x s); simpl; [apply IH|done].
Qed.

(** Two nested loops run the body over the flattened sequence. *)
Lemma for_each_bind {A B S} (l : list A) (f : A → list B)
    (body : B → S → result S) (s : S) :
  Py.for_each (l ≫= f) body s =
  Py.for_each l (λ a s, Py.for_each (f a) body s) s.
Proof.
  revert s. induction l as [|a l IH]; intros s; csimpl; [done|].
  rewrite for_each_app. destruct (Py.for_each (f a) body s); simpl; [apply IH|done].
Qed.

Lemma for_each_ext {A S} (xs : list A) (body1 body2 : A → S → result S) (s : S) :
  (∀ x s, x ∈ xs → body1 x s = body2 x s) →
  Py.for_each xs body1 s = Py.for_each xs body2 s.
Proof.
  revert s. induction xs as [|x xs IH]; intros s Hext; simpl; [done|].
  rewrite Hext by left. destruct (body2 x s); simpl; [|done].
  apply IH. intros. apply Hext. by right.
Qed.

(** ** Tile paths *)

Lemma length_append (s1 s2 : string) :
  String.length (s1 +:+ s2) = (String.length s1 + String.length s2)%nat.
Proof. induction s1 as [|c s1 IH]; simpl; [done|]. by rewrite IH. Qed.

Lemma append_inj_r (s1 s2 t : string) : s1 +:+ t = s2 +:+ t → s1 = s2.
Proof.
  revert s2. induction s1 as [|c s1 IH]; intros [|c' s2]; simpl; intros Heq.
  - done.
  - apply (f_equal String.length) in Heq. simpl in Heq.
    rewrite !length_append in Heq. simpl in Heq. lia.
  - apply (f_equal String.length) in Heq. simpl in Heq.
    rewrite !length_append in Heq. simpl in Heq. lia.
  - injection Heq as -> Heq. f_equal. by apply IH.
Qed.

Lemma tile_name_inj (n1 n2 : Z) : tile_name n1 = tile_name n2 → n1 = n2.
Proof.
  unfold tile_name, Py.str. intros Heq.
  apply String.app_inj, append_inj_r in Heq. by apply (inj pretty).
Qed.

Lemma tile_name_not_absolute (n : Z) : Py.starts_with_sep (tile_name n) = false.
Proof. done. Qed.

Lemma tile_path_inj (output_folder : string) (n1 n2 : Z) :
  tile_path output_folder n1 = tile_path output_folder n2 → n1 = n2.
Proof.
  unfold tile_path, Py.path_join. rewrite !tile_name_not_absolute.
  destruct (_ || _)%bool; intros Heq.
  - by apply String.app_inj, tile_name_inj in Heq.
  - by do 2 apply String.app_inj in Heq; apply tile_name_inj in Heq.
Qed.

(** ** What the cropping loop does to its state *)

Lemma tile_image_mode (image : PIL.Image) (b : Z * Z * Z * Z) :
  PIL.mode (tile_image image b) = saved_mode (PIL.mode image).
Proof.
  unfold tile_image, saved_mode. destruct b as [[[x0 y0] x1] y1]. simpl.
  by destruct (String.eqb _ _).
Qed.

Lemma tile_image_size (image : PIL.Image) (x0 y0 x1 y1 : Z) :
  PIL.size (tile_image image (x0, y0, x1, y1)) = (x1 - x0, y1 - y0).
Proof. unfold tile_image. simpl. by destruct (String.eqb _ _). Qed.

Section crop_loop.
Variables (image : PIL.Image) (output_folder : string).

Lemma crop_body_save_box (W H t y x : Z) (s : crop_state) :
  crop_body image W H t output_folder y x s =
  save_box image output_folder (tile_box W H t x y) s.
Proof.
  unfold crop_body, save_box, stored_tile, IO.Image_save_jpeg.
  by destruct (PIL.jpeg_mode _).
Qed.

Lemma save_boxes_spec (bs : list (Z * Z * Z * Z)) (s s' : crop_state) :
  Py.for_each bs (save_box image output_folder) s = Ok s' →
  tile_num s' = tile_num s + Z.of_nat (length bs) ∧
  tiles_with_coordinates s' =
    tiles_with_coordinates s ++
    imap (λ k b, (tile_path output_folder (tile_num s + Z.of_nat k), box_origin b))
         bs ∧
  (∀ k b, bs !! k = Some b →
     is_Some (stored_tile image b) ∧
     files s' !! tile_path output_folder (tile_num s + Z.of_nat k) =
     stored_tile image b) ∧
  (∀ p, (∀ k, (k < length bs)%nat →
           p ≠ tile_path output_folder (tile_num s + Z.of_nat k)) →
        files s' !! p = files s !! p).
Proof.
  revert s. induction bs as [|b bs IH]; intros s; simpl.
  - intros [= <-]. split_and!; [lia|by rewrite app_nil_r|done|done].
  - unfold save_box at 1. destruct (stored_tile image b) as [f|] eqn:Hf; [|done].
    simpl. intros Hrest. apply IH in Hrest as (Hnum & Htiles & Hnew & Hold).
    simpl in *. split_and!.
    + lia.
    + rewrite Htiles, <- app_assoc. f_equal. simpl. f_equal.
      * do 2 f_equal. lia.
      * apply imap_ext. intros k b' _. simpl. do 2 f_equal. lia.
    + intros [|k] b' Hb'; simpl in Hb'.
      * injection Hb' as <-. split; [by rewrite Hf|].
        rewrite Hold, Z.add_0_r, lookup_insert_eq; [by rewrite Hf|].
        intros k _ Heq%tile_path_inj. lia.
      * destruct (Hnew k b' Hb') as [? Hk]. split; [done|].
        rewrite <- Hk. do 2 f_equal. lia.
    + intros p Hp. rewrite Hold.
      * apply lookup_insert_ne. intros <-. apply (Hp 0%nat); [lia|].
        by rewrite Z.add_0_r.
      * intros k Hk. replace (tile_num s + 1 + Z.of_nat k)
          with (tile_num s + Z.of_nat (S k)) by lia.
        apply Hp. lia.
Qed.

Lemma save_boxes_total (bs : list (Z * Z * Z * Z)) (s : crop_state) :
  is_Some (PIL.jpeg_mode (saved_mode (PIL.mode image))) →
  ∃ s', Py.for_each bs (save_box image output_folder) s = Ok s'.
Proof.
  intros [m Hm]. revert s. induction bs as [|b bs IH]; intros s; simpl; [eauto|].
  unfold save_box at 1, stored_tile. rewrite tile_image_mode, Hm. simpl.
  apply IH.
Qed.

Lemma save_boxes_fail (bs : list (Z * Z * Z * Z)) (s : crop_state) :
  PIL.jpeg_mode (saved_mode (PIL.mode image)) = None → bs ≠ [] →
  Py.for_each bs (save_box image output_folder) s = Raise OSError.
Proof.
  intros Hm. destruct bs as [|b bs]; [done|]. intros _. simpl.
  unfold save_box, stored_tile. by rewrite tile_image_mode, Hm.
Qed.
End crop_loop.

(** The function as one loop over the grid. *)
Lemma crop_image_into_tiles_grid (image_path output_folder : string) (t : Z)
    (fs : store) (image : PIL.Image) (crs : option CRS) (T : Affine.t) :
  fs !! image_path = Some (RasterFile image crs T) → 0 < t →
  crop_image_into_tiles image_path t output_folder fs =
  let! s := Py.for_each (grid_boxes (PIL.size image).1 (PIL.size image).2 t)
              (save_box image output_folder) (mkCrop 0 [] fs) in
  Ok (tiles_with_coordinates s, files s).
Proof.
  intros Himg Ht. unfold crop_image_into_tiles, IO.Image_open. rewrite Himg. simpl.
  destruct (PIL.size image) as [W H] eqn:Hsize. simpl.
  rewrite range_grid_offsets by done. simpl.
  unfold grid_boxes. rewrite for_each_bind. f_equal.
  apply for_each_ext. intros y s _.
  rewrite range_grid_offsets by done. simpl.
  rewrite for_each_bind. apply for_each_ext. intros x s' _. simpl.
  rewrite crop_body_save_box. unfold tile_box. by destruct (save_box _ _ _ _).
Qed.

(** ** Remapping and filtering *)

Lemma adjust_boxes_fmap (boxes : list bbox) (tile_x tile_y : Z) :
  adjust_boxes boxes tile_x tile_y = (λ b, to_full_image b tile_x tile_y) <$> boxes.
Proof.
  unfold adjust_boxes.
  enough (Hgen : ∀ acc, foldl (λ adjusted_boxes box,
             let '(x_min, y_min, x_max, y_max) := box in
             let adjusted_box :=
               (x_min + inject_Z tile_x, y_min + inject_Z tile_y,
                x_max + inject_Z tile_x, y_max + inject_Z tile_y)%Q in
             adjusted_boxes ++ [adjusted_box]) acc boxes
           = acc ++ ((λ b, to_full_image b tile_x tile_y) <$> boxes))
    by apply (Hgen []).
  induction boxes as [|[[[x_min y_min] x_max] y_max] boxes IH]; intros acc; simpl.
  - by rewrite app_nil_r.
  - by rewrite IH, <- app_assoc.
Qed.

Lemma collect_tile_body (threshold : Q) (labels : list string)
    (boxes : list bbox) (scores : list Q) (tile_x tile_y : Z) (acc : list row) :
  collect_tile threshold (labels, boxes, scores, tile_x, tile_y) acc =
  Py.for_each (Py.enumerate boxes)
    (collect_body threshold labels scores tile_x tile_y) acc.
Proof.
  unfold collect_tile. apply for_each_ext. by intros [i [[[??]?]?]] s _.
Qed.

Section inner_loops.
Variables (threshold : Q) (labels : list string) (scores : list Q)
          (tile_x tile_y : Z).

Lemma collect_loop (boxes : list bbox) (i : nat) (acc : list row) :
  (i + length boxes ≤ length labels)%nat →
  (i + length boxes ≤ length scores)%nat →
  Py.for_each (Py.enumerate_from i boxes)
    (collect_body threshold labels scores tile_x tile_y) acc =
  Ok (acc ++ (row_of <$> List.filter (λ d, score_ge (d_score d) threshold)
                           (detections_from labels scores tile_x tile_y i boxes))).
Proof.
  revert i acc.
  induction boxes as [|[[[x_min y_min] x_max] y_max] boxes IH];
    intros i acc Hl Hs; simpl in *.
  - unfold detections_from. destruct (drop i labels); simpl; by rewrite app_nil_r.
  - destruct (lookup_lt_is_Some_2 labels i) as [l Hli]; [lia|].
    destruct (lookup_lt_is_Some_2 scores i) as [s Hsi]; [lia|].
    unfold detections_from. rewrite (drop_S _ _ _ Hli), (drop_S _ _ _ Hsi). simpl.
    unfold Py.index. rewrite Hsi. simpl.
    destruct (score_ge s threshold) eqn:Hge; simpl.
    + rewrite Hli. simpl. rewrite IH by lia.
      by rewrite <- app_assoc.
    + by rewrite IH by lia.
Qed.

Lemma display_loop (boxes : list bbox) (i : nat) (acc : list Rectangle) :
  (i + length boxes ≤ length labels)%nat →
  (i + length boxes ≤ length scores)%nat →
  Py.for_each (Py.enumerate_from i (adjust_boxes boxes tile_x tile_y))
    (display_body threshold scores) acc =
  Ok (acc ++ (rect_of <$> List.filter (λ d, score_gt (d_score d) threshold)
                            (detections_from labels scores tile_x tile_y i boxes))).
Proof.
  rewrite adjust_boxes_fmap. revert i acc.
  induction boxes as [|[[[x_min y_min] x_max] y_max] boxes IH];
    intros i acc Hl Hs; simpl in *.
  - unfold detections_from. destruct (drop i labels); simpl; by rewrite app_nil_r.
  - destruct (lookup_lt_is_Some_2 labels i) as [l Hli]; [lia|].
    destruct (lookup_lt_is_Some_2 scores i) as [s Hsi]; [lia|].
    unfold detections_from. rewrite (drop_S _ _ _ Hli), (drop_S _ _ _ Hsi). simpl.
    unfold Py.index. rewrite Hsi. simpl.
    destruct (score_gt s threshold) eqn:Hgt; simpl.
    + rewrite IH by lia. by rewrite <- app_assoc.
    + by rewrite IH by lia.
Qed.
End inner_loops.

Lemma collect_tile_spec (threshold : Q) (tp : tile_prediction) (acc : list row) :
  well_formed tp →
  collect_tile threshold tp acc =
  Ok (acc ++ (row_of <$> List.filter (λ d, score_ge (d_score d) threshold)
                           (tile_detections tp))).
Proof.
  destruct tp as [[[[labels boxes] scores] tile_x] tile_y]. intros [Hl Hs].
  rewrite collect_tile_body. unfold Py.enumerate.
  rewrite collect_loop by lia. done.
Qed.

Lemma collect_all_spec (threshold : Q) (all_predictions : list tile_prediction)
    (acc : list row) :
  Forall well_formed all_predictions →
  Py.for_each all_predictions (collect_tile threshold) acc =
  Ok (acc ++ (row_of <$> retained threshold all_predictions)).
Proof.
  unfold retained, all_detections. intros Hwf. revert acc.
  induction Hwf as [|tp tps Htp _ IH]; intros acc; csimpl.
  - by rewrite app_nil_r.
  - rewrite collect_tile_spec by done. simpl. rewrite IH.
    by rewrite List.filter_app, fmap_app, app_assoc.
Qed.

Lemma display_all_spec (threshold : Q) (all_predictions : list tile_prediction)
    (acc : list Rectangle) :
  Forall well_formed all_predictions →
  Py.for_each all_predictions
    (fun '(labels, boxes, scores, tile_x, tile_y) patches =>
       let adjusted_boxes := adjust_boxes boxes tile_x tile_y in
       Py.for_each (Py.enumerate adjusted_boxes)
         (fun '(i, box) patches =>
            let! s := Py.index scores i in
            if score_gt s threshold then
              let '(x_min, y_min, x_max, y_max) := box in
              let rect := mkRectangle (x_min, y_min) (x_max - x_min) (y_max - y_min) in
              Ok (patches ++ [rect])
            else Ok patches)
         patches) acc =
  Ok (acc ++ (rect_of <$> displayed threshold all_predictions)).
Proof.
  unfold displayed, all_detections. intros Hwf. revert acc.
  induction Hwf as [|tp tps Htp _ IH]; intros acc; csimpl.
  - by rewrite app_nil_r.
  - destruct tp as [[[[labels boxes] scores] tile_x] tile_y].
    destruct Htp as [Hl Hs].
    rewrite (for_each_ext _ _ (display_body threshold scores))
      by (by intros [i [[[??]?]?]] s _).
    unfold Py.enumerate. rewrite (display_loop _ labels) by lia.
    simpl. rewrite IH. by rewrite List.filter_app, fmap_app, app_assoc.
Qed.

(** ** The export *)

Lemma georeferenced_geo_row (T : Affine.t) (d : detection) :
  georeferenced T (row_of d) (geo_row T d).
Proof.
  destruct d as [l [[[x_min y_min] x_max] y_max] s].
  unfold georeferenced, row_of, geo_row, transform_polygon. simpl. done.
Qed.

Lemma apply_geometry_inv (func : Shapely.Polygon → result Shapely.Polygon)
    (gdf gdf' : Geopandas.GeoDataFrame) :
  Geopandas.apply_geometry func gdf = Ok gdf' →
  Geopandas.crs gdf' = Geopandas.crs gdf ∧
  Forall2 (λ r f, func (geometry r) = Ok (geometry f) ∧
                  label f = label r ∧ score f = score r)
          (Geopandas.rows gdf) (Geopandas.rows gdf').
Proof.
  unfold Geopandas.apply_geometry.
  enough (Hgen : ∀ rs acc out,
    Py.for_each rs (λ r acc, let! g := func (geometry r) in
                             Ok (acc ++ [mkRow g (label r) (score r)])) acc = Ok out →
    ∃ fs, out = acc ++ fs ∧
          Forall2 (λ r f, func (geometry r) = Ok (geometry f) ∧
                          label f = label r ∧ score f = score r) rs fs).
  { destruct (Py.for_each _ _ _) as [out|] eqn:Hloop; simpl; [|done].
    intros [= <-]. simpl. apply Hgen in Hloop as (fs & -> & HF). done. }
  induction rs as [|r rs IH]; intros acc out; simpl.
  - intros [= <-]. exists []. by rewrite app_nil_r.
  - destruct (func (geometry r)) as [g|] eqn:Hg; simpl; [|done].
    intros (fs & -> & HF)%IH. exists (mkRow g (label r) (score r) :: fs).
    rewrite <- app_assoc. split; [done|]. by constructor.
Qed.

Lemma apply_geometry_rows (T : Affine.t) (ds : list detection) (c : option CRS) :
  Geopandas.apply_geometry (λ geom, transform_polygon geom T)
    (Geopandas.mkFrame (row_of <$> ds) c) =
  Ok (Geopandas.mkFrame (geo_row T <$> ds) c).
Proof.
  unfold Geopandas.apply_geometry. simpl.
  enough (Hgen : ∀ acc,
    Py.for_each (row_of <$> ds)
      (λ r acc, let! g := transform_polygon (geometry r) T in
                Ok (acc ++ [mkRow g (label r) (score r)])) acc =
    Ok (acc ++ (geo_row T <$> ds))) by by rewrite Hgen.
  induction ds as [|d ds IH]; intros acc; simpl.
  - by rewrite app_nil_r.
  - destruct (georeferenced_geo_row T d) as (Hg & Hl & Hs).
    rewrite Hg. simpl. rewrite IH, <- app_assoc. simpl.
    do 3 f_equal. destruct (geo_row T d). simpl in *. by subst.
Qed.

Section export.
Variables (all_predictions : list tile_prediction)
          (image_path output_shapefile : string) (threshold : Q) (fs : store).

(** A run that writes a layer read a raster with a CRS, collected at least
    one record, and wrote the records with that CRS. *)
Lemma export_inv (fs' : store) :
  create_georeferenced_shapefile all_predictions image_path output_shapefile
    threshold fs = Ok fs' →
  ∃ image c T polygons feats,
    fs !! image_path = Some (RasterFile image (Some c) T) ∧
    c = "EPSG:32611"%string ∧
    Py.for_each all_predictions (collect_tile threshold) [] = Ok polygons ∧
    polygons ≠ [] ∧
    Forall2 (georeferenced T) polygons feats ∧
    fs' = <[output_shapefile := VectorFile (mkLayer feats (Some c))]> fs.
Proof.
  unfold create_georeferenced_shapefile, IO.rasterio_open.
  destruct (fs !! image_path) as [[image crs T|]|] eqn:Hfile; simpl; try done.
  destruct (Py.for_each _ _ _) as [polygons|]; simpl; [|done].
  destruct polygons as [|r rs]; simpl; [done|].
  destruct (Geopandas.apply_geometry _ _) as [gdf|] eqn:Happly; simpl; [|done].
  apply apply_geometry_inv in Happly as [Hcrs HF]. simpl in *.
  destruct crs as [c|]; simpl; [|done]. rewrite Hcrs.
  destruct (String.eqb_spec "EPSG:32611" c) as [<-|]; simpl; [|done].
  unfold Geopandas.to_file. rewrite Hcrs. intros [= <-].
  exists image, "EPSG:32611"%string, T, (r :: rs), (Geopandas.rows gdf).
  done.
Qed.

Hypothesis wf : Forall well_formed all_predictions.

Lemma export_writes_retained (image : PIL.Image) (T : Affine.t) :
  fs !! image_path = Some (RasterFile image (Some "EPSG:32611"%string) T) →
  retained threshold all_predictions ≠ [] →
  create_georeferenced_shapefile all_predictions image_path output_shapefile
    threshold fs =
  Ok (<[output_shapefile :=
          VectorFile (mkLayer (geo_row T <$> retained threshold all_predictions)
                              (Some "EPSG:32611"%string))]> fs).
Proof.
  intros Hfile Hne.
  unfold create_georeferenced_shapefile, IO.rasterio_open. rewrite Hfile. simpl.
  rewrite collect_all_spec by done. simpl.
  destruct (retained threshold all_predictions) as [|d ds] eqn:Hret; [done|].
  change (row_of <$> d :: ds) with (row_of d :: (row_of <$> ds)). simpl.
  change (row_of d :: (row_of <$> ds)) with (row_of <$> d :: ds).
  rewrite apply_geometry_rows. done.
Qed.

Lemma export_nothing_retained (image : PIL.Image) (crs : option CRS) (T : Affine.t) :
  fs !! image_path = Some (RasterFile image crs T) →
  retained threshold all_predictions = [] →
  create_georeferenced_shapefile all_predictions image_path output_shapefile
    threshold fs = Raise ValueError.
Proof.
  intros Hfile Hnone.
  unfold create_georeferenced_shapefile, IO.rasterio_open. rewrite Hfile. simpl.
  rewrite collect_all_spec by done. by rewrite Hnone.
Qed.

(** The frame is built with the constant ["EPSG:32611"], and [set_crs]
    does not replace a CRS: a raster in any other CRS, or in none, makes
    the export raise. *)
Lemma export_other_crs (image : PIL.Image) (crs : option CRS) (T : Affine.t) :
  fs !! image_path = Some (RasterFile image crs T) →
  crs ≠ Some "EPSG:32611"%string →
  ∃ e, create_georeferenced_shapefile all_predictions image_path
         output_shapefile threshold fs = Raise e.
Proof.
  intros Hfile Hcrs.
  destruct (create_georeferenced_shapefile _ _ _ _ _) as [fs'|e] eqn:Hrun; [|eauto].
  apply export_inv in Hrun as (image' & c & T' & polygons & feats & Hfile' & -> & _).
  rewrite Hfile in Hfile'. by injection Hfile' as _ -> _.
Qed.
End export.

Lemma retained_spec (threshold : Q) (all_predictions : list tile_prediction)
    (d : detection) :
  In d (retained threshold all_predictions) ↔
  In d (all_detections all_predictions) ∧ (threshold <= d_score d)%Q.
Proof. unfold retained, score_ge. by rewrite List.filter_In, Qle_bool_iff. Qed.

Lemma displayed_spec (threshold : Q) (all_predictions : list tile_prediction)
    (d : detection) :
  In d (displayed threshold all_predictions) ↔
  In d (all_detections all_predictions) ∧ (threshold < d_score d)%Q.
Proof.
  unfold displayed, score_gt. rewrite List.filter_In, negb_true_iff.
  rewrite <- not_true_iff_false, Qle_bool_iff. split.
  - intros [? Hn]. split; [done|]. by apply Qnot_le_lt.
  - intros [? Hlt]. split; [done|]. by apply Qlt_not_le.
Qed.

(** ** What the detector is given *)

(** The detector is called on the image each tile path opens to, in the
    order of the list. *)
Lemma get_predictions_for_tiles_spec (tiles : list (string * (Z * Z)))
    (model : PIL.Image → prediction) (threshold : Q) (fs : store)
    (images : list PIL.Image) :
  Forall2 (λ tile img, IO.Image_open tile.1 fs = Ok img) tiles images →
  get_predictions_for_tiles tiles model threshold fs =
  Ok (zip_with (λ tile img, (model img, tile.2.1, tile.2.2)) tiles images).
Proof.
  unfold get_predictions_for_tiles. intros Hopen.
  enough (Hgen : ∀ acc,
    Py.for_each tiles
      (λ '(tile_path, (tile_x, tile_y)) all_predictions,
         let! tile := IO.Image_open tile_path fs in
         let '(labels, boxes, scores) := model tile in
         Ok (all_predictions ++ [(labels, boxes, scores, tile_x, tile_y)])) acc =
    Ok (acc ++ zip_with (λ tile img, (model img, tile.2.1, tile.2.2)) tiles images))
    by apply (Hgen []).
  induction Hopen as [|[path [x y]] img tiles images Himg _ IH]; intros acc; simpl.
  - by rewrite app_nil_r.
  - simpl in Himg. rewrite Himg. simpl.
    destruct (model img) as [[labels boxes] scores]. simpl.
    by rewrite IH, <- app_assoc.
Qed.

Lemma Forall_exists_Forall2 {A B} (P : A → B → Prop) (l : list A) :
  (∀ k x, l !! k = Some x → ∃ y, P x y) → ∃ l', Forall2 P l l'.
Proof.
  induction l as [|x l IH]; intros Hall; [by exists []|].
  destruct (Hall 0%nat x eq_refl) as [y Hy].
  destruct IH as [l' Hl']; [intros k x' Hk; by apply (Hall (S k))|].
  exists (y :: l'). by constructor.
Qed.

(** ** The tiles [crop_image_into_tiles] returns *)

Section crop_result.
Variables (image_path output_folder : string) (tile_size : Z) (fs : store)
          (image : PIL.Image) (crs : option CRS) (T : Affine.t) (W H : Z).
Hypothesis raster : fs !! image_path = Some (RasterFile image crs T).
Hypothesis raster_size : PIL.size image = (W, H).
Hypothesis tile_size_pos : 0 < tile_size.

Lemma crop_total :
  is_Some (PIL.jpeg_mode (saved_mode (PIL.mode image))) →
  ∃ tiles fs',
    crop_image_into_tiles image_path tile_size output_folder fs = Ok (tiles, fs').
Proof.
  intros Hmode. rewrite (crop_image_into_tiles_grid _ _ _ _ _ _ _ raster) by done.
  destruct (save_boxes_total image output_folder
              (grid_boxes (PIL.size image).1 (PIL.size image).2 tile_size)
              (mkCrop 0 [] fs) Hmode) as [s ->].
  simpl. eauto.
Qed.

Lemma crop_extents (tiles : list (string * (Z * Z))) (fs' : store) :
  crop_image_into_tiles image_path tile_size output_folder fs = Ok (tiles, fs') →
  tiles = imap (λ k b, (tile_path output_folder (Z.of_nat k), box_origin b))
               (grid_boxes W H tile_size) ∧
  (∀ k b, grid_boxes W H tile_size !! k = Some b →
     is_Some (stored_tile image b) ∧
     fs' !! tile_path output_folder (Z.of_nat k) = stored_tile image b) ∧
  tile_extent fs' <$> tiles = Some <$> grid_boxes W H tile_size.
Proof.
  rewrite (crop_image_into_tiles_grid _ _ _ _ _ _ _ raster) by done.
  rewrite raster_size. simpl.
  destruct (Py.for_each _ _ _) as [s|] eqn:Hloop; simpl; [|done].
  intros [= <- <-].
  apply save_boxes_spec in Hloop as (_ & Htiles & Hnew & _). simpl in *.
  split; [done|]. split; [done|].
  rewrite Htiles. apply list_eq. intros k.
  rewrite !list_lookup_fmap, list_lookup_imap.
  destruct (grid_boxes W H tile_size !! k) as [b|] eqn:Hb; simpl; [|done].
  destruct (Hnew k b Hb) as [[f Hf] Hfile]. f_equal.
  unfold tile_extent. simpl. rewrite Hfile, Hf.
  unfold stored_tile in Hf. destruct b as [[[x0 y0] x1] y1].
  destruct (PIL.jpeg_mode _); simpl in Hf; [|done]. injection Hf as <-. simpl.
  rewrite tile_image_size. simpl. do 2 f_equal; [f_equal|]; lia.
Qed.

Lemma extent_of_tile (tiles : list (string * (Z * Z))) (fs' : store) (k : nat)
    (tile : string * (Z * Z)) :
  tile_extent fs' <$> tiles = Some <$> grid_boxes W H tile_size →
  tiles !! k = Some tile →
  ∃ b, grid_boxes W H tile_size !! k = Some b ∧ tile_extent fs' tile = Some b.
Proof.
  intros Hext Hk. apply (f_equal (.!! k)) in Hext.
  rewrite !list_lookup_fmap, Hk in Hext. simpl in Hext.
  destruct (grid_boxes W H tile_size !! k) as [b|]; simpl in Hext; [|done].
  exists b. split; [done|]. congruence.
Qed.

Lemma tile_of_box (tiles : list (string * (Z * Z))) (fs' : store) (k : nat)
    (b : Z * Z * Z * Z) :
  tile_extent fs' <$> tiles = Some <$> grid_boxes W H tile_size →
  grid_boxes W H tile_size !! k = Some b →
  ∃ tile, tiles !! k = Some tile ∧ tile_extent fs' tile = Some b.
Proof.
  intros Hext Hk. apply (f_equal (.!! k)) in Hext.
  rewrite !list_lookup_fmap, Hk in Hext. simpl in Hext.
  destruct (tiles !! k) as [tile|]; simpl in Hext; [|done].
  exists tile. split; [done|]. congruence.
Qed.

Lemma crop_zero_tile_size :
  crop_image_into_tiles image_path 0 output_folder fs = Raise ValueError.
Proof.
  unfold crop_image_into_tiles, IO.Image_open.
  rewrite raster. simpl. by rewrite raster_size.
Qed.

Lemma crop_negative_tile_size (t : Z) :
  0 <= H → t < 0 →
  crop_image_into_tiles image_path t output_folder fs = Ok ([], fs).
Proof.
  intros HH Ht. unfold crop_image_into_tiles, IO.Image_open.
  rewrite raster. simpl. rewrite raster_size.
  unfold Py.range, Py.range_length.
  destruct (Z.eqb_spec t 0); [lia|].
  destruct (Z.ltb_spec 0 t); [lia|].
  destruct (Z.ltb_spec H 0); [lia|]. done.
Qed.

(** C1: for an image of width [W > 0] and height [H > 0] and a tile size
    [t > 0], the boxes of the tiles [crop_image_into_tiles] returns (each
    saved tile placed at its recorded origin) are pairwise disjoint and
    cover exactly the pixels [0,W)×[0,H): every pixel of the image is in a
    box, no pixel outside the image is, and no pixel is in two tiles. The
    function returns whenever the tiles' mode can be written as JPEG. *)
Theorem crop_tiles_partition :
  0 < W → 0 < H →
  (is_Some (PIL.jpeg_mode (saved_mode (PIL.mode image))) →
   ∃ tiles fs',
     crop_image_into_tiles image_path tile_size output_folder fs = Ok (tiles, fs')) ∧
  ∀ tiles fs',
    crop_image_into_tiles image_path tile_size output_folder fs = Ok (tiles, fs') →
    (∀ k tile, tiles !! k = Some tile → is_Some (tile_extent fs' tile)) ∧
    (∀ p, 0 <= p.1 < W ∧ 0 <= p.2 < H ↔
          ∃ k tile b, tiles !! k = Some tile ∧ tile_extent fs' tile = Some b ∧
                      in_box p b) ∧
    (∀ i j ti tj bi bj p,
       tiles !! i = Some ti → tiles !! j = Some tj →
       tile_extent fs' ti = Some bi → tile_extent fs' tj = Some bj →
       in_box p bi → in_box p bj → i = j).
Proof.
  intros _ _. split; [apply crop_total|].
  intros tiles fs' (_ & _ & Hext)%crop_extents. split_and!.
  - intros k tile Hk. destruct (extent_of_tile _ _ _ _ Hext Hk) as (b & _ & ->). eauto.
  - intros p. rewrite (grid_boxes_cover W H tile_size tile_size_pos p). split.
    + intros (b & (k & Hk)%list_elem_of_lookup & Hin).
      destruct (tile_of_box _ _ _ _ Hext Hk) as (tile & ? & ?). eauto 10.
    + intros (k & tile & b & Hk & Hb & Hin).
      destruct (extent_of_tile _ _ _ _ Hext Hk) as (b' & Hk' & Hb').
      exists b. split; [|done]. apply list_elem_of_lookup. exists k. congruence.
  - intros i j ti tj bi bj p Hi Hj Hbi Hbj Hini Hinj.
    destruct (extent_of_tile _ _ _ _ Hext Hi) as (bi' & Hi' & ?).
    destruct (extent_of_tile _ _ _ _ Hext Hj) as (bj' & Hj' & ?).
    assert (bi' = bi) as -> by congruence. assert (bj' = bj) as -> by congruence.
    assert (bi = bj) as ->.
    { apply (grid_boxes_disjoint W H tile_size tile_size_pos p);
        [apply list_elem_of_lookup; eauto..|done|done]. }
    apply (NoDup_lookup _ _ _ _ (NoDup_grid_boxes W H tile_size tile_size_pos) Hi' Hj').
Qed.

(** C5: the tiles are returned in row-major order ([oy = 0, t, 2t, …]
    while [oy < H]; for each [oy], [ox = 0, t, …] while [ox < W]), the
    [k]-th of them named [tile_k.jpg] with origin [(ox, oy)], and the box
    of each is [(ox, oy, min(ox+t, W), min(oy+t, H))]: edge tiles are
    clipped, not padded. *)
Theorem crop_tiles_row_major :
  (is_Some (PIL.jpeg_mode (saved_mode (PIL.mode image))) →
   ∃ tiles fs',
     crop_image_into_tiles image_path tile_size output_folder fs = Ok (tiles, fs')) ∧
  ∀ tiles fs',
    crop_image_into_tiles image_path tile_size output_folder fs = Ok (tiles, fs') →
    tiles = imap (λ k '(ox, oy, _, _),
                    (Py.path_join output_folder
                       ("tile_" +:+ Py.str (Z.of_nat k) +:+ ".jpg"), (ox, oy)))
                 (grid_boxes W H tile_size) ∧
    tile_extent fs' <$> tiles = Some <$> grid_boxes W H tile_size.
Proof.
  split; [apply crop_total|].
  intros tiles fs' (-> & _ & Hext)%crop_extents. split; [|done].
  apply imap_ext. by intros k [[[ox oy] x1] y1] _.
Qed.





(** C8, as the code has it: a tile size of zero makes [range] raise
    [ValueError], and a negative tile size raises nothing: both ranges are
    empty and the function returns an empty list of tiles, the files
    untouched. *)
Theorem crop_tile_size_not_positive_cases :
  0 <= H →
  (crop_image_into_tiles image_path 0 output_folder fs = Raise ValueError) ∧
  (∀ t, t < 0 →
        crop_image_into_tiles image_path t output_folder fs = Ok ([], fs)).
Proof.
  intros HH. split; [apply crop_zero_tile_size|].
  intros t Ht. by apply crop_negative_tile_size.
Qed.
End crop_result.

(** ** Remapping *)

(** C3: the remap of a tile-local box [(x_min, y_min, x_max, y_max)] by the
    tile origin [(tile_x, tile_y)] is exactly
    [(x_min + tile_x, y_min + tile_y, x_max + tile_x, y_max + tile_y)], in
    [adjust_boxes] and in the export alike; for the offset [(1024, 0)] and
    the box [(10, 20, 30, 40)] it is [(1034, 20, 1054, 40)]. *)
Theorem remap_adds_tile_offset (boxes : list bbox) (tile_x tile_y : Z)
    (l : string) (x_min y_min x_max y_max s : Q) :
  adjust_boxes boxes tile_x tile_y =
    (λ '(x_min, y_min, x_max, y_max),
       (x_min + inject_Z tile_x, y_min + inject_Z tile_y,
        x_max + inject_Z tile_x, y_max + inject_Z tile_y)%Q) <$> boxes ∧
  collect_tile s ([l], [(x_min, y_min, x_max, y_max)], [s], tile_x, tile_y) [] =
    Ok [mkRow (Shapely.box (x_min + inject_Z tile_x) (y_min + inject_Z tile_y)
                           (x_max + inject_Z tile_x) (y_max + inject_Z tile_y))
              l s] ∧
  adjust_boxes [(10, 20, 30, 40)%Q] 1024 0 = [(1034, 20, 1054, 40)%Q].
Proof.
  split_and!.
  - rewrite adjust_boxes_fmap. apply list_fmap_ext.
    by intros _ [[[??]?]?] _.
  - unfold collect_tile. simpl. unfold score_ge.
    assert (Qle_bool s s = true) as -> by apply Qle_bool_iff, Qle_refl. done.
  - reflexivity.
Qed.

Lemma compose_apply (T1 T2 : Affine.t) (p : Q * Q) :
  point_eq (Affine.apply (Affine.compose T1 T2) p)
           (Affine.apply T1 (Affine.apply T2 p)).
Proof. destruct p as [x y]. unfold point_eq. simpl. split; ring. Qed.

(** For a scale-and-translation transform the composition only moves the
    translation, by the scaled offset. *)
Lemma compose_scale_translation (sx sy ox oy tx ty : Q) :
  let T' := Affine.compose (Affine.mk sx 0 ox 0 sy oy) (Affine.translation tx ty) in
  (Affine.a T' == sx ∧ Affine.b T' == 0 ∧ Affine.c T' == sx * tx + ox ∧
   Affine.d T' == 0 ∧ Affine.e T' == sy ∧ Affine.f T' == sy * ty + oy)%Q.
Proof. simpl. repeat split; ring. Qed.

(** C4: shifting a tile-local box by the tile origin and then taking it
    through the raster's transform gives the polygon the tile-local box has
    under the transform composed with the translation by the origin, the
    coordinates being equal as exact numbers; this holds for every affine
    transform, so for scale-and-translation ones. *)
Theorem offset_then_transform (boxes : list bbox) (tile_x tile_y : Z)
    (T : Affine.t) :
  Forall2 (λ full local,
             ∃ g1 g2,
               transform_polygon (box_polygon full) T = Ok g1 ∧
               transform_polygon (box_polygon local)
                 (Affine.compose T
                    (Affine.translation (inject_Z tile_x) (inject_Z tile_y))) = Ok g2 ∧
               polygon_eq g1 g2)
          (adjust_boxes boxes tile_x tile_y) boxes.
Proof.
  rewrite adjust_boxes_fmap. apply Forall2_fmap_l, Forall_Forall2_diag, Forall_forall.
  intros [[[x_min y_min] x_max] y_max] _. eexists _, _.
  split; [reflexivity|]. split; [reflexivity|].
  unfold polygon_eq, point_eq. repeat constructor; simpl; ring.
Qed.

(** ** Filtering and writing *)

(** C2: the export keeps exactly the detections with
    [score >= threshold], in tile-then-detection order: one whose score
    equals the threshold is written, one strictly below is dropped. *)
Theorem export_keeps_scores_at_or_above_threshold
    (all_predictions : list tile_prediction) (image_path output_shapefile : string)
    (threshold : Q) (fs : store) (image : PIL.Image) (T : Affine.t) :
  fs !! image_path = Some (RasterFile image (Some "EPSG:32611"%string) T) →
  Forall well_formed all_predictions →
  Py.for_each all_predictions (collect_tile threshold) [] =
    Ok (row_of <$> retained threshold all_predictions) ∧
  (retained threshold all_predictions ≠ [] →
   create_georeferenced_shapefile all_predictions image_path output_shapefile
     threshold fs =
   Ok (<[output_shapefile :=
           VectorFile (mkLayer (geo_row T <$> retained threshold all_predictions)
                               (Some "EPSG:32611"%string))]> fs)) ∧
  (∀ d, In d (retained threshold all_predictions) ↔
        In d (all_detections all_predictions) ∧ (threshold <= d_score d)%Q) ∧
  (∀ d, In d (all_detections all_predictions) → (d_score d == threshold)%Q →
        In d (retained threshold all_predictions)) ∧
  (∀ d, In d (all_detections all_predictions) → (d_score d < threshold)%Q →
        ¬ In d (retained threshold all_predictions)).
Proof.
  intros Hfile Hwf. split_and!.
  - by rewrite collect_all_spec.
  - intros Hne. by eapply export_writes_retained.
  - apply retained_spec.
  - intros d Hd Heq. apply retained_spec. split; [done|].
    rewrite Heq. apply Qle_refl.
  - intros d Hd Hlt [_ Hle]%retained_spec. by apply Qlt_not_le in Hlt.
Qed.

(** C6, as the code has it: when no detection is at or above the threshold
    (an empty prediction list included) the export raises [ValueError] when
    it builds the frame, and writes no layer. *)
Theorem export_of_nothing_raises
    (all_predictions : list tile_prediction) (image_path output_shapefile : string)
    (threshold : Q) (fs : store) (image : PIL.Image) (crs : option CRS)
    (T : Affine.t) :
  fs !! image_path = Some (RasterFile image crs T) →
  Forall well_formed all_predictions →
  retained threshold all_predictions = [] →
  create_georeferenced_shapefile all_predictions image_path output_shapefile
    threshold fs = Raise ValueError.
Proof. intros. by eapply export_nothing_retained. Qed.

(** What a written layer declares: the CRS read from the raster, its
    geometries being the collected pixel boxes taken through the raster's
    transform by [transform_polygon], not reprojected. A layer is written
    for a raster in EPSG:32611 with a retained detection, and for no raster
    in another CRS ([export_other_crs]). *)
Lemma export_declares_raster_crs
    (all_predictions : list tile_prediction) (image_path output_shapefile : string)
    (threshold : Q) (fs : store) (image : PIL.Image) (crs : option CRS)
    (T : Affine.t) :
  fs !! image_path = Some (RasterFile image crs T) →
  (∀ fs',
     create_georeferenced_shapefile all_predictions image_path output_shapefile
       threshold fs = Ok fs' →
     ∃ polygons layer,
       Py.for_each all_predictions (collect_tile threshold) [] = Ok polygons ∧
       fs' = <[output_shapefile := VectorFile layer]> fs ∧
       layer_crs layer = crs ∧
       Forall2 (georeferenced T) polygons (features layer)) ∧
  (crs = Some "EPSG:32611"%string → Forall well_formed all_predictions →
   retained threshold all_predictions ≠ [] →
   ∃ fs',
     create_georeferenced_shapefile all_predictions image_path output_shapefile
       threshold fs = Ok fs').
Proof.
  intros Hfile. split.
  - intros fs' Hrun.
    apply export_inv in Hrun
      as (image' & c & T' & polygons & feats & Hfile' & _ & Hcollect & _ & HF & ->).
    rewrite Hfile in Hfile'. injection Hfile' as _ -> ->.
    by exists polygons, (mkLayer feats (Some c)).
  - intros -> Hwf Hne. eexists. by eapply export_writes_retained.
Qed.

(** C10: the overlay draws the detections with [score > threshold] and the
    export collects those with [score >= threshold]; a detection whose
    score equals the threshold is among the exported and not among the
    drawn. *)
Theorem display_and_export_differ_at_threshold
    (all_predictions : list tile_prediction) (image_path : string)
    (threshold : Q) (fs : store) (image : PIL.Image) (crs : option CRS)
    (T : Affine.t) :
  fs !! image_path = Some (RasterFile image crs T) →
  Forall well_formed all_predictions →
  display_original_image_with_boxes image_path all_predictions threshold fs =
    Ok (rect_of <$> displayed threshold all_predictions) ∧
  Py.for_each all_predictions (collect_tile threshold) [] =
    Ok (row_of <$> retained threshold all_predictions) ∧
  (∀ output_shapefile, crs = Some "EPSG:32611"%string →
     retained threshold all_predictions ≠ [] →
     create_georeferenced_shapefile all_predictions image_path output_shapefile
       threshold fs =
     Ok (<[output_shapefile :=
             VectorFile (mkLayer (geo_row T <$> retained threshold all_predictions)
                                 (Some "EPSG:32611"%string))]> fs)) ∧
  (∀ d, In d (all_detections all_predictions) → (d_score d == threshold)%Q →
        In d (retained threshold all_predictions) ∧
        ¬ In d (displayed threshold all_predictions)).
Proof.
  intros Hfile Hwf. split_and!.
  - unfold display_original_image_with_boxes, IO.Image_open. rewrite Hfile. simpl.
    by rewrite display_all_spec.
  - by rewrite collect_all_spec.
  - intros out -> Hne. by eapply export_writes_retained.
  - intros d Hd Heq. split.
    + apply retained_spec. split; [done|]. rewrite Heq. apply Qle_refl.
    + intros [_ Hlt]%displayed_spec. rewrite Heq in Hlt. by apply Qlt_irrefl in Hlt.
Qed.

(** ** The theorems at the sample inputs *)

Lemma sample_disk_ortho :
  Sample.disk !! "ortho.tif"%string =
  Some (RasterFile Sample.ortho (Some "EPSG:32611"%string) Sample.utm).
Proof. vm_compute. reflexivity. Defined.


Lemma sample_three_well_formed : Forall well_formed Sample.three.
Proof. repeat constructor. Defined.

Lemma sample_boundary_well_formed : Forall well_formed Sample.boundary.
Proof. repeat constructor. Defined.

Lemma crop_tiles_partition_witness :
  ∃ tiles fs',
    crop_image_into_tiles "ortho.tif" 1024 "cropped_tiles" Sample.disk = Ok (tiles, fs') ∧
    (∀ p, 0 <= p.1 < 2000 ∧ 0 <= p.2 < 1500 ↔
          ∃ k tile b, tiles !! k = Some tile ∧ tile_extent fs' tile = Some b ∧
                      in_box p b) ∧
    (∀ i j ti tj bi bj p,
       tiles !! i = Some ti → tiles !! j = Some tj →
       tile_extent fs' ti = Some bi → tile_extent fs' tj = Some bj →
       in_box p bi → in_box p bj → i = j).
Proof.
  destruct (crop_tiles_partition "ortho.tif" "cropped_tiles" 1024 Sample.disk
              Sample.ortho (Some "EPSG:32611"%string) Sample.utm 2000 1500
              sample_disk_ortho eq_refl eq_refl eq_refl eq_refl)
    as [Htotal Hpart].
  destruct Htotal as (tiles & fs' & Hrun); [vm_compute; eauto|].
  exists tiles, fs'. split; [exact Hrun|].
  destruct (Hpart tiles fs' Hrun) as (_ & Hcover & Hdisjoint).
  split; [exact Hcover | exact Hdisjoint].
Defined.

Lemma crop_tiles_row_major_witness :
  ∃ fs',
    crop_image_into_tiles "ortho.tif" 1024 "cropped_tiles" Sample.disk =
      Ok ([("cropped_tiles/tile_0.jpg", (0, 0));
           ("cropped_tiles/tile_1.jpg", (1024, 0));
           ("cropped_tiles/tile_2.jpg", (0, 1024));
           ("cropped_tiles/tile_3.jpg", (1024, 1024))]%string, fs') ∧
    tile_extent fs' <$>
      [("cropped_tiles/tile_0.jpg", (0, 0));
       ("cropped_tiles/tile_1.jpg", (1024, 0));
       ("cropped_tiles/tile_2.jpg", (0, 1024));
       ("cropped_tiles/tile_3.jpg", (1024, 1024))]%string =
      [Some (0, 0, 1024, 1024); Some (1024, 0, 2000, 1024);
       Some (0, 1024, 1024, 1500); Some (1024, 1024, 2000, 1500)].
Proof.
  destruct (crop_tiles_row_major "ortho.tif" "cropped_tiles" 1024 Sample.disk
              Sample.ortho (Some "EPSG:32611"%string) Sample.utm 2000 1500
              sample_disk_ortho eq_refl eq_refl)
    as [Htotal Hpart].
  destruct Htotal as (tiles & fs' & Hrun); [vm_compute; eauto|].
  destruct (Hpart tiles fs' Hrun) as [Htiles Hext].
  exists fs'. vm_compute in Htiles. subst tiles. split; [exact Hrun|].
  rewrite Hext. vm_compute. reflexivity.
Defined.



Lemma crop_tile_size_not_positive_cases_witness :
  crop_image_into_tiles "ortho.tif" 0 "cropped_tiles" Sample.disk = Raise ValueError ∧
  crop_image_into_tiles "ortho.tif" (-1024) "cropped_tiles" Sample.disk =
    Ok ([], Sample.disk).
Proof.
  destruct (crop_tile_size_not_positive_cases "ortho.tif" "cropped_tiles" Sample.disk
              Sample.ortho (Some "EPSG:32611"%string) Sample.utm 2000 1500
              sample_disk_ortho eq_refl ltac:(lia))
    as [Hzero Hneg].
  split; [exact Hzero | apply Hneg; lia].
Defined.

(** A negative tile size returns an empty list of tiles instead of failing. *)
Lemma negative_tile_size_does_not_fail :
  ¬ (∀ image_path tile_size output_folder fs,
       tile_size <= 0 →
       ∃ e, crop_image_into_tiles image_path tile_size output_folder fs = Raise e).
Proof.
  intros Hclaim.
  destruct (Hclaim "ortho.tif"%string (-1) "cropped_tiles"%string Sample.disk)
    as [e Hrun]; [lia|].
  rewrite (crop_negative_tile_size "ortho.tif" "cropped_tiles" Sample.disk
             Sample.ortho (Some "EPSG:32611"%string) Sample.utm 2000 1500
             sample_disk_ortho eq_refl (-1)) in Hrun by lia.
  discriminate.
Qed.

Lemma export_keeps_scores_at_or_above_threshold_witness :
  length (all_detections Sample.three) = 3%nat ∧
  length (retained 0.15 Sample.three) = 2%nat ∧
  create_georeferenced_shapefile Sample.three "ortho.tif" "lettuce.shp" 0.15
    Sample.disk =
  Ok (<["lettuce.shp"%string :=
          VectorFile (mkLayer (geo_row Sample.utm <$> retained 0.15 Sample.three)
                              (Some "EPSG:32611"%string))]> Sample.disk).
Proof.
  split; [reflexivity|]. split; [reflexivity|].
  destruct (export_keeps_scores_at_or_above_threshold Sample.three "ortho.tif"
              "lettuce.shp" 0.15 Sample.disk Sample.ortho Sample.utm
              sample_disk_ortho sample_three_well_formed)
    as (_ & Hwrite & _).
  apply Hwrite. vm_compute. discriminate.
Defined.

Lemma export_of_nothing_raises_witness :
  create_georeferenced_shapefile Sample.three "ortho.tif" "lettuce.shp" 0.5
    Sample.disk = Raise ValueError.
Proof.
  apply (export_of_nothing_raises Sample.three "ortho.tif" "lettuce.shp" 0.5
           Sample.disk Sample.ortho (Some "EPSG:32611"%string) Sample.utm
           sample_disk_ortho sample_three_well_formed).
  vm_compute. reflexivity.
Defined.

(** An empty prediction list makes the export raise: no empty layer is
    written. *)
Lemma export_of_no_detection_writes_no_layer :
  ¬ (∀ all_predictions image_path output_shapefile threshold fs image crs T,
       fs !! image_path = Some (RasterFile image (Some crs) T) →
       retained threshold all_predictions = [] →
       ∃ fs',
         create_georeferenced_shapefile all_predictions image_path
           output_shapefile threshold fs = Ok fs' ∧
         fs' !! output_shapefile = Some (VectorFile (mkLayer [] (Some crs)))).
Proof.
  intros Hclaim.
  destruct (Hclaim [] "ortho.tif"%string "lettuce.shp"%string 0.15%Q Sample.disk
              Sample.ortho "EPSG:32611"%string Sample.utm sample_disk_ortho eq_refl)
    as (fs' & Hrun & _).
  vm_compute in Hrun. discriminate.
Qed.

(** C7, where the code departs from it: for the sample raster in
    EPSG:32612 and a prediction with a detection to write, no layer in the
    raster's CRS is written. The frame is built with the constant
    EPSG:32611, [set_crs] does not replace it, and the export raises
    [ValueError]. *)
Theorem export_of_zone12_raster_raises :
  Sample2.zone12_disk !! "ortho.tif"%string =
    Some (RasterFile Sample.ortho (Some "EPSG:32612"%string) Sample.utm) ∧
  retained 0.15 Sample.boundary ≠ [] ∧
  create_georeferenced_shapefile Sample.boundary "ortho.tif" "lettuce.shp" 0.15
    Sample2.zone12_disk = Raise ValueError.
Proof.
  split_and!.
  - vm_compute. reflexivity.
  - vm_compute. discriminate.
  - vm_compute. reflexivity.
Qed.

Lemma export_declares_raster_crs_witness :
  ∃ fs' layer,
    create_georeferenced_shapefile Sample.three "ortho.tif" "lettuce.shp" 0.15
      Sample.disk = Ok fs' ∧
    fs' = <["lettuce.shp"%string := VectorFile layer]> Sample.disk ∧
    layer_crs layer = Some "EPSG:32611"%string.
Proof.
  destruct (export_declares_raster_crs Sample.three "ortho.tif" "lettuce.shp" 0.15
              Sample.disk Sample.ortho (Some "EPSG:32611"%string) Sample.utm
              sample_disk_ortho)
    as [Hwritten Htotal].
  destruct (Htotal eq_refl sample_three_well_formed) as [fs' Hrun];
    [vm_compute; discriminate|].
  destruct (Hwritten fs' Hrun) as (polygons & layer & _ & Hfs & Hcrs & _).
  exists fs', layer. split; [exact Hrun|]. split; [exact Hfs | exact Hcrs].
Defined.

Lemma display_and_export_differ_at_threshold_witness :
  display_original_image_with_boxes "ortho.tif" Sample.boundary 0.15 Sample.disk =
    Ok [] ∧
  Py.for_each Sample.boundary (collect_tile 0.15) [] =
    Ok [mkRow (Shapely.box 1034 20 1054 40) "lettuce" 0.15].
Proof.
  destruct (display_and_export_differ_at_threshold Sample.boundary "ortho.tif" 0.15
              Sample.disk Sample.ortho (Some "EPSG:32611"%string) Sample.utm
              sample_disk_ortho sample_boundary_well_formed)
    as (Hdisplay & Hcollect & _).
  split; [exact Hdisplay | exact Hcollect].
Defined.

(** * Further properties of the notebook's code *)

(** ** Tiling *)

Lemma grid_boxes_nonempty (W H t : Z) :
  0 < t → 0 < W → 0 < H → grid_boxes W H t ≠ [].
Proof.
  intros Ht HW HH Hnil.
  assert (Hin : (0 * t, 0 * t, Z.min (0 * t + t) W, Z.min (0 * t + t) H)
                ∈ grid_boxes W H t).
  { apply elem_of_grid_boxes; [done|]. exists 0, 0. split_and!; (lia || done). }
  rewrite Hnil in Hin. by apply not_elem_of_nil in Hin.
Qed.

Lemma length_grid_offsets (step limit : Z) :
  0 < step → 0 < limit →
  Z.of_nat (length (grid_offsets step limit)) = (limit - 1) / step + 1.
Proof.
  intros Hstep Hlimit. unfold grid_offsets.
  rewrite offsets_while_range by lia.
  rewrite length_fmap, length_seq.
  pose proof (range_length_nonneg step Hstep 0 limit) as Hn.
  rewrite Z2Nat.id by done. unfold Py.range_length.
  destruct (Z.ltb_spec 0 step); [|lia].
  destruct (Z.ltb_spec 0 limit); [|lia].
  by rewrite Z.sub_0_r.
Qed.

Lemma length_bind_const {A B} (f : A → list B) (l : list A) (n : nat) :
  (∀ x, length (f x) = n) → length (l ≫= f) = (length l * n)%nat.
Proof.
  intros Hf. induction l as [|x l IH]; csimpl; [done|].
  by rewrite length_app, Hf, IH.
Qed.

Lemma length_grid_boxes (W H t : Z) :
  0 < t → 0 < W → 0 < H →
  Z.of_nat (length (grid_boxes W H t)) = ((W - 1) / t + 1) * ((H - 1) / t + 1).
Proof.
  intros Ht HW HH. unfold grid_boxes.
  rewrite (length_bind_const _ _ (length (grid_offsets t W))).
  - rewrite Nat2Z.inj_mul, !length_grid_offsets by done. lia.
  - intros oy. rewrite (length_bind_const _ _ 1%nat) by done. lia.
Qed.

Section crop_more.
Variables (image_path output_folder : string) (tile_size : Z) (fs : store)
          (image : PIL.Image) (crs : option CRS) (T : Affine.t) (W H : Z).
Hypothesis raster : fs !! image_path = Some (RasterFile image crs T).
Hypothesis raster_size : PIL.size image = (W, H).
Hypothesis tile_size_pos : 0 < tile_size.

Lemma crop_other_paths (tiles : list (string * (Z * Z))) (fs' : store) (p : string) :
  crop_image_into_tiles image_path tile_size output_folder fs = Ok (tiles, fs') →
  (∀ k : nat, (k < length tiles)%nat → p ≠ tile_path output_folder (Z.of_nat k)) →
  fs' !! p = fs !! p.
Proof.
  rewrite (crop_image_into_tiles_grid _ _ _ _ _ _ _ raster) by done.
  rewrite raster_size. simpl.
  destruct (Py.for_each _ _ _) as [s|] eqn:Hloop; simpl; [|done].
  intros [= <- <-] Hp.
  apply save_boxes_spec in Hloop as (_ & Htiles & _ & Hold). simpl in *.
  apply Hold. intros k Hk. apply Hp.
  by rewrite Htiles, length_imap.
Qed.

(** X1: an image whose tiles are in a mode the JPEG encoder does not take
    (a palette, 16-bit or floating-point image, or one with an alpha channel
    that is not RGBA) makes [crop_image_into_tiles] raise [OSError] at the
    first tile; no list of tiles is returned. *)
Theorem crop_unwritable_mode_raises :
  0 < W → 0 < H →
  PIL.jpeg_mode (saved_mode (PIL.mode image)) = None →
  crop_image_into_tiles image_path tile_size output_folder fs = Raise OSError.
Proof.
  intros HW HH Hmode.
  rewrite (crop_image_into_tiles_grid _ _ _ _ _ _ _ raster) by done.
  rewrite raster_size. simpl.
  rewrite save_boxes_fail; [done|done|]. by apply grid_boxes_nonempty.
Qed.

(** X2: the number of tiles is the number of columns times the number of
    rows, [ceil(W / tile_size) * ceil(H / tile_size)]. *)
Theorem crop_tile_count (tiles : list (string * (Z * Z))) (fs' : store) :
  0 < W → 0 < H →
  crop_image_into_tiles image_path tile_size output_folder fs = Ok (tiles, fs') →
  Z.of_nat (length tiles) =
  ((W - 1) / tile_size + 1) * ((H - 1) / tile_size + 1).
Proof.
  intros HW HH Hrun.
  apply (crop_extents _ _ _ _ _ _ _ _ _ raster raster_size tile_size_pos)
    in Hrun as (-> & _ & _).
  rewrite length_imap. by apply length_grid_boxes.
Qed.

(** X3: every tile lies inside the image, starts on a multiple of the tile
    size, is not empty and is at most [tile_size] wide and high; it is
    narrower only in the last column, and lower only in the last row. *)
Theorem crop_tile_sizes (tiles : list (string * (Z * Z))) (fs' : store) :
  crop_image_into_tiles image_path tile_size output_folder fs = Ok (tiles, fs') →
  ∀ k tile x0 y0 x1 y1,
    tiles !! k = Some tile →
    tile_extent fs' tile = Some (x0, y0, x1, y1) →
    tile.2 = (x0, y0) ∧
    0 <= x0 ∧ 0 <= y0 ∧ x1 <= W ∧ y1 <= H ∧
    x0 mod tile_size = 0 ∧ y0 mod tile_size = 0 ∧
    0 < x1 - x0 <= tile_size ∧ 0 < y1 - y0 <= tile_size ∧
    (x1 - x0 < tile_size → x1 = W) ∧ (y1 - y0 < tile_size → y1 = H).
Proof.
  intros Hrun k tile x0 y0 x1 y1 Hk Hext.
  apply (crop_extents _ _ _ _ _ _ _ _ _ raster raster_size tile_size_pos)
    in Hrun as (Htiles & _ & Hexts).
  destruct (extent_of_tile _ _ _ _ _ _ _ Hexts Hk) as (b & Hb & Hext').
  assert (b = (x0, y0, x1, y1)) as -> by congruence.
  rewrite Htiles, list_lookup_imap, Hb in Hk. injection Hk as <-.
  apply list_elem_of_lookup_2, elem_of_grid_boxes in Hb
    as (i & j & Hi & Hj & HiW & HjH & [= -> -> -> ->]); [|done].
  rewrite !Z.mod_mul by lia. split; [done|]. nia.
Qed.

Lemma grid_boxes_single (t : Z) :
  0 < W <= t → 0 < H <= t → grid_boxes W H t = [(0, 0, W, H)].
Proof.
  intros HW HH.
  assert (Hoff : ∀ n, 0 < n <= t → grid_offsets t n = [0]).
  { intros n Hn. unfold grid_offsets. rewrite offsets_while_range by lia.
    unfold Py.range_length.
    destruct (Z.ltb_spec 0 t); [|lia].
    destruct (Z.ltb_spec 0 n); [|lia].
    rewrite Z.div_small by lia. done. }
  unfold grid_boxes. rewrite (Hoff H HH), (Hoff W HW). csimpl.
  by rewrite !Z.min_r by lia.
Qed.

(** X4: with a tile size that is at least the width and the height of the
    image, whatever [crop_image_into_tiles] returns is a single tile,
    [tile_0.jpg] at the origin, whose box is the whole image; nothing is
    padded. *)
Theorem crop_single_tile (tiles : list (string * (Z * Z))) (fs' : store) :
  0 < W <= tile_size → 0 < H <= tile_size →
  crop_image_into_tiles image_path tile_size output_folder fs = Ok (tiles, fs') →
  tiles = [(tile_path output_folder 0, (0, 0))] ∧
  tile_extent fs' (tile_path output_folder 0, (0, 0)) = Some (0, 0, W, H).
Proof.
  intros HW HH Hrun.
  apply (crop_extents _ _ _ _ _ _ _ _ _ raster raster_size tile_size_pos)
    in Hrun as (-> & _ & Hext).
  rewrite (grid_boxes_single _ HW HH) in *. simpl in *.
  split; [done|]. by injection Hext.
Qed.

(** X5: the only files [crop_image_into_tiles] writes are the tile files
    [tile_0.jpg] … [tile_(n-1).jpg] of the output folder; every other file
    is as it was. The store holds files: the folder the function creates
    when it is missing is no part of it, and nothing is said about it. *)
Theorem crop_writes_tile_paths_only (tiles : list (string * (Z * Z)))
    (fs' : store) :
  crop_image_into_tiles image_path tile_size output_folder fs = Ok (tiles, fs') →
  (∀ k tile, tiles !! k = Some tile →
     tile.1 = tile_path output_folder (Z.of_nat k) ∧
     ∃ im, fs' !! tile.1 = Some (RasterFile im None Affine.identity)) ∧
  (∀ p, (∀ k : nat, (k < length tiles)%nat →
           p ≠ tile_path output_folder (Z.of_nat k)) →
        fs' !! p = fs !! p).
Proof.
  intros Hrun. split; [|intros p; by apply crop_other_paths].
  apply (crop_extents _ _ _ _ _ _ _ _ _ raster raster_size tile_size_pos)
    in Hrun as (-> & Hnew & _).
  intros k tile Hk. rewrite list_lookup_imap in Hk.
  destruct (grid_boxes W H tile_size !! k) as [b|] eqn:Hb; simpl in Hk; [|done].
  injection Hk as <-. simpl. split; [done|].
  destruct (Hnew k b Hb) as [[f Hf] ->]. rewrite Hf.
  unfold stored_tile in Hf. cbv zeta in Hf.
  destruct (PIL.jpeg_mode _); simpl in Hf; [|done].
  injection Hf as <-. eauto.
Qed.
End crop_more.

Lemma save_boxes_again (image : PIL.Image) (output_folder : string)
    (bs : list (Z * Z * Z * Z)) (s : crop_state) :
  (∀ k b, bs !! k = Some b →
     is_Some (stored_tile image b) ∧
     files s !! tile_path output_folder (tile_num s + Z.of_nat k) =
     stored_tile image b) →
  Py.for_each bs (save_box image output_folder) s =
  Ok {| tile_num := tile_num s + Z.of_nat (length bs);
        tiles_with_coordinates :=
          tiles_with_coordinates s ++
          imap (λ k b, (tile_path output_folder (tile_num s + Z.of_nat k),
                        box_origin b)) bs;
        files := files s |}.
Proof.
  revert s. induction bs as [|b bs IH]; intros s Hsaved; simpl.
  - destruct s. simpl. by rewrite Z.add_0_r, app_nil_r.
  - destruct (Hsaved 0%nat b eq_refl) as [[f Hf] Hfile].
    rewrite Z.add_0_r in Hfile. unfold save_box at 1. rewrite Hf. simpl.
    rewrite insert_id by (by rewrite Hfile).
    rewrite IH; simpl.
    + f_equal. f_equal; [lia|]. rewrite <- app_assoc. simpl. do 2 f_equal.
      * by rewrite Z.add_0_r.
      * apply imap_ext. intros k b' _. simpl. do 2 f_equal. lia.
    + intros k b' Hk. destruct (Hsaved (S k) b' Hk) as [? Hfile'].
      split; [done|]. rewrite <- Hfile'. do 2 f_equal. lia.
Qed.

Lemma opened_images {B} (P : B → PIL.Image → Prop) (path : nat → string)
    (origin : B → Z * Z) (fs : store) (bs : list B) :
  (∀ k b, bs !! k = Some b →
     ∃ tile, P b tile ∧ IO.Image_open (path k) fs = Ok tile) →
  ∃ images,
    Forall2 P bs images ∧
    Forall2 (λ tile img, IO.Image_open tile.1 fs = Ok img)
            (imap (λ k b, (path k, origin b)) bs) images.
Proof.
  revert path. induction bs as [|b bs IH]; intros path Hopen.
  - exists []. by split.
  - destruct (Hopen 0%nat b eq_refl) as (tile & Htile & Hfile).
    destruct (IH (path ∘ S)) as (images & Hre & Hop).
    { intros k b' Hk. by apply (Hopen (S k)). }
    exists (tile :: images). split; [by constructor|].
    rewrite imap_cons. by constructor.
Qed.

Lemma predictions_of_opened_images {B} (P : B → PIL.Image → Prop)
    (path : nat → string) (origin : B → Z * Z)
    (model : PIL.Image → prediction) (bs : list B) (images : list PIL.Image) :
  Forall2 P bs images →
  Forall2 (λ b tp, ∃ tile, P b tile ∧
                           tp = (model tile, (origin b).1, (origin b).2))
          bs
          (zip_with (λ tile img, (model img, tile.2.1, tile.2.2))
                    (imap (λ k b, (path k, origin b)) bs) images).
Proof.
  intros Hre. revert path.
  induction Hre as [|b tile bs images Hb _ IH]; intros path.
  - constructor.
  - rewrite imap_cons. simpl. constructor; [eauto|]. apply (IH (path ∘ S)).
Qed.

Section crop_again.
Variables (image_path output_folder : string) (tile_size : Z) (fs : store)
          (image : PIL.Image) (crs : option CRS) (T : Affine.t) (W H : Z).
Hypothesis raster : fs !! image_path = Some (RasterFile image crs T).
Hypothesis raster_size : PIL.size image = (W, H).
Hypothesis tile_size_pos : 0 < tile_size.

(** X6: cropping again over the files of a first run, the image still in
    its place, returns the same tiles and leaves every file as it is. *)
Theorem crop_again_changes_nothing (tiles : list (string * (Z * Z)))
    (fs' : store) :
  crop_image_into_tiles image_path tile_size output_folder fs = Ok (tiles, fs') →
  fs' !! image_path = Some (RasterFile image crs T) →
  crop_image_into_tiles image_path tile_size output_folder fs' = Ok (tiles, fs').
Proof.
  intros Hrun Hkept.
  apply (crop_extents _ _ _ _ _ _ _ _ _ raster raster_size tile_size_pos)
    in Hrun as (-> & Hnew & _).
  rewrite (crop_image_into_tiles_grid _ _ _ _ _ _ _ Hkept) by done.
  rewrite raster_size. simpl.
  rewrite save_boxes_again; [done|].
  intros k b Hb. simpl. by apply Hnew.
Qed.

(** X7: the tiling and the detection compose. For an image whose tiles can
    be written, [get_predictions_for_tiles] on the tiles and files that
    [crop_image_into_tiles] returns never fails, and gives one entry for
    each box of the grid, in row-major order: what the detector finds in the
    saved tile of that box, with the box's origin as [(tile_x, tile_y)]. *)
Theorem predictions_follow_the_grid (model : PIL.Image → prediction)
    (threshold : Q) :
  is_Some (PIL.jpeg_mode (saved_mode (PIL.mode image))) →
  ∃ tiles fs' all_predictions,
    crop_image_into_tiles image_path tile_size output_folder fs = Ok (tiles, fs') ∧
    get_predictions_for_tiles tiles model threshold fs' = Ok all_predictions ∧
    Forall2 (λ b tp, ∃ tile, reopened_tile image b = Some tile ∧
                             tp = (model tile, b.1.1.1, b.1.1.2))
            (grid_boxes W H tile_size) all_predictions.
Proof.
  intros Hmode.
  destruct (crop_total image_path output_folder _ _ _ _ _ raster tile_size_pos Hmode)
    as (tiles & fs' & Hrun).
  exists tiles, fs'.
  pose proof Hrun as Hspec.
  apply (crop_extents _ _ _ _ _ _ _ _ _ raster raster_size tile_size_pos)
    in Hspec as (-> & Hnew & _).
  assert (Hopen : ∀ k b, grid_boxes W H tile_size !! k = Some b →
    ∃ tile, reopened_tile image b = Some tile ∧
            IO.Image_open (tile_path output_folder (Z.of_nat k)) fs' = Ok tile).
  { intros k b Hb. destruct (Hnew k b Hb) as [[f Hf] Hfile].
    unfold IO.Image_open, reopened_tile. rewrite Hfile, Hf.
    unfold stored_tile in Hf. cbv zeta in Hf.
    destruct (PIL.jpeg_mode (PIL.mode (tile_image image b))); simpl in Hf; [|done].
    injection Hf as <-. eauto. }
  destruct (opened_images _ _ box_origin _ _ Hopen) as (images & Hre & Hop).
  eexists. split; [done|].
  split; [by apply get_predictions_for_tiles_spec|].
  by apply (predictions_of_opened_images _ _ box_origin).
Qed.
End crop_again.

(** ** Detection *)

Lemma get_predictions_for_tiles_inv (tiles : list (string * (Z * Z)))
    (model : PIL.Image → prediction) (threshold : Q) (fs : store)
    (all_predictions : list tile_prediction) :
  get_predictions_for_tiles tiles model threshold fs = Ok all_predictions →
  ∃ images,
    Forall2 (λ tile img, IO.Image_open tile.1 fs = Ok img) tiles images.
Proof.
  unfold get_predictions_for_tiles.
  enough (Hgen : ∀ acc out,
    Py.for_each tiles
      (λ '(tile_path, (tile_x, tile_y)) all_predictions,
         let! tile := IO.Image_open tile_path fs in
         let '(labels, boxes, scores) := model tile in
         Ok (all_predictions ++ [(labels, boxes, scores, tile_x, tile_y)])) acc =
    Ok out →
    ∃ images,
      Forall2 (λ tile img, IO.Image_open tile.1 fs = Ok img) tiles images)
    by apply Hgen.
  induction tiles as [|[path [x y]] tiles IH]; intros acc out; simpl.
  - intros _. by exists [].
  - destruct (IO.Image_open path fs) as [img|] eqn:Himg; simpl; [|done].
    destruct (model img) as [[labels boxes] scores]. simpl.
    intros (images & Hrest)%IH. exists (img :: images). by constructor.
Qed.

(** X8: [get_predictions_for_tiles] returns exactly when every tile path
    opens as an image, and otherwise raises; what it returns has one entry
    for each tile, in order, carrying that tile's offsets. Whatever the
    detector finds is kept: the [threshold] argument is not used. *)
Theorem get_predictions_returns_iff_tiles_open
    (tiles : list (string * (Z * Z))) (model : PIL.Image → prediction)
    (threshold : Q) (fs : store) :
  ((∃ all_predictions,
      get_predictions_for_tiles tiles model threshold fs = Ok all_predictions) ↔
   Forall (λ tile, ∃ img, IO.Image_open tile.1 fs = Ok img) tiles) ∧
  (∀ all_predictions,
     get_predictions_for_tiles tiles model threshold fs = Ok all_predictions →
     length all_predictions = length tiles ∧
     (λ tp : tile_prediction, (tp.1.2, tp.2)) <$> all_predictions = snd <$> tiles ∧
     ∀ threshold',
       get_predictions_for_tiles tiles model threshold' fs = Ok all_predictions).
Proof.
  split.
  - split.
    + intros (all_predictions & (images & Hopen)%get_predictions_for_tiles_inv).
      eapply Forall2_Forall_l; [exact Hopen|].
      apply Forall_forall. intros img _ tile Himg. eauto.
    + intros Hall.
      destruct (Forall_exists_Forall2
                  (λ tile img, IO.Image_open tile.1 fs = Ok img) tiles)
        as [images Hopen].
      { intros k tile Hk. by apply (Forall_lookup_1 _ _ _ _ Hall Hk). }
      eexists. by apply get_predictions_for_tiles_spec.
  - intros all_predictions Hrun.
    destruct (get_predictions_for_tiles_inv _ _ _ _ _ Hrun) as [images Hopen].
    rewrite (get_predictions_for_tiles_spec _ _ _ _ _ Hopen) in Hrun.
    injection Hrun as <-. split_and!.
    + rewrite length_zip_with. apply Forall2_length in Hopen. lia.
    + clear -Hopen. induction Hopen as [|[path [x y]] img tiles images _ _ IH];
        csimpl; [done|]. by rewrite IH.
    + intros threshold'. by apply get_predictions_for_tiles_spec.
Qed.

(** ** Remapping *)

(** X9: [adjust_boxes] is a translation. It keeps the number of boxes and
    the width and height of each; two adjustments in a row are one
    adjustment by the sum of the offsets, and the offset [(0, 0)] changes
    nothing (coordinates compared as numbers). *)
Theorem adjust_boxes_is_a_translation (boxes : list bbox)
    (tile_x tile_y tile_x' tile_y' : Z) :
  length (adjust_boxes boxes tile_x tile_y) = length boxes ∧
  Forall2 same_extent (adjust_boxes boxes tile_x tile_y) boxes ∧
  Forall2 bbox_eq
    (adjust_boxes (adjust_boxes boxes tile_x tile_y) tile_x' tile_y')
    (adjust_boxes boxes (tile_x + tile_x') (tile_y + tile_y')) ∧
  Forall2 bbox_eq (adjust_boxes boxes 0 0) boxes.
Proof.
  rewrite !adjust_boxes_fmap. split_and!.
  - by rewrite length_fmap.
  - apply Forall2_fmap_l, Forall_Forall2_diag, Forall_forall.
    intros [[[x_min y_min] x_max] y_max] _. simpl. split; ring.
  - rewrite <- list_fmap_compose.
    apply Forall2_fmap, Forall_Forall2_diag, Forall_forall.
    intros [[[x_min y_min] x_max] y_max] _. simpl.
    rewrite !inject_Z_plus. split_and!; ring.
  - apply Forall2_fmap_l, Forall_Forall2_diag, Forall_forall.
    intros [[[x_min y_min] x_max] y_max] _. simpl. split_and!; ring.
Qed.

(** X10: boxes that lie inside their tile (between [0] and the tile's
    width and height) are adjusted to boxes inside that tile's rectangle of
    the image, hence inside the image. *)
Theorem adjusted_boxes_stay_in_their_tile (W H t ox oy x1 y1 : Z)
    (boxes : list bbox) :
  0 < t →
  (ox, oy, x1, y1) ∈ grid_boxes W H t →
  Forall (λ b, bbox_within b (0, 0, x1 - ox, y1 - oy)) boxes →
  Forall (λ b, bbox_within b (ox, oy, x1, y1) ∧ bbox_within b (0, 0, W, H))
         (adjust_boxes boxes ox oy).
Proof.
  intros Ht Hbox Hin. rewrite adjust_boxes_fmap, Forall_fmap.
  apply elem_of_grid_boxes in Hbox
    as (i & j & Hi & Hj & HiW & HjH & [= -> -> -> ->]); [|done].
  eapply Forall_impl; [exact Hin|].
  intros [[[x_min y_min] x_max] y_max]. simpl.
  set (X1 := Z.min (i * t + t) W). set (Y1 := Z.min (j * t + t) H).
  assert (HX : X1 <= W) by lia. assert (HY : Y1 <= H) by lia.
  assert (HX0 : 0 <= i * t) by nia. assert (HY0 : 0 <= j * t) by nia.
  rewrite Zle_Qle in HX, HY, HX0, HY0.
  rewrite <- !Z.add_opp_r, !inject_Z_plus, !inject_Z_opp.
  change (inject_Z 0) with 0%Q in *.
  intros (? & ? & ? & ? & ? & ?). split_and!; lra.
Qed.

(** ** Sequences of unequal length *)

Section short.
Variables (threshold : Q) (labels : list string) (scores : list Q)
          (tile_x tile_y : Z).

Lemma collect_loop_raises (boxes : list bbox) (i : nat) (acc : list row) (e : exn) :
  Py.for_each (Py.enumerate_from i boxes)
    (collect_body threshold labels scores tile_x tile_y) acc = Raise e →
  e = IndexError.
Proof.
  revert i acc. induction boxes as [|[[[x_min y_min] x_max] y_max] boxes IH];
    intros i acc; simpl; [done|].
  unfold Py.index. destruct (scores !! i) as [s|]; simpl; [|by intros [= <-]].
  destruct (score_ge s threshold); simpl; [|apply IH].
  destruct (labels !! i) as [l|]; simpl; [apply IH|by intros [= <-]].
Qed.

Lemma collect_loop_returns (boxes : list bbox) (i : nat) (acc out : list row) :
  Py.for_each (Py.enumerate_from i boxes)
    (collect_body threshold labels scores tile_x tile_y) acc = Ok out →
  boxes = [] ∨ (i + length boxes ≤ length scores)%nat.
Proof.
  revert i acc. induction boxes as [|[[[x_min y_min] x_max] y_max] boxes IH];
    intros i acc; simpl; [by left|].
  unfold Py.index. destruct (scores !! i) as [s|] eqn:Hs; simpl; [|done].
  apply lookup_lt_Some in Hs. intros Hrest. right.
  assert (∃ acc', Py.for_each (Py.enumerate_from (S i) boxes)
            (collect_body threshold labels scores tile_x tile_y) acc' = Ok out)
    as [acc' Hrest'].
  { destruct (score_ge s threshold); simpl in Hrest; [|eauto].
    destruct (labels !! i); simpl in Hrest; [eauto|done]. }
  apply IH in Hrest' as [->|?]; simpl; lia.
Qed.

Lemma display_loop_raises (boxes : list bbox) (i : nat) (acc : list Rectangle)
    (e : exn) :
  Py.for_each (Py.enumerate_from i boxes) (display_body threshold scores) acc =
    Raise e →
  e = IndexError.
Proof.
  revert i acc. induction boxes as [|[[[x_min y_min] x_max] y_max] boxes IH];
    intros i acc; simpl; [done|].
  unfold Py.index. destruct (scores !! i) as [s|]; simpl; [|by intros [= <-]].
  destruct (score_gt s threshold); simpl; apply IH.
Qed.

Lemma display_loop_returns (boxes : list bbox) (i : nat)
    (acc out : list Rectangle) :
  Py.for_each (Py.enumerate_from i boxes) (display_body threshold scores) acc =
    Ok out →
  boxes = [] ∨ (i + length boxes ≤ length scores)%nat.
Proof.
  revert i acc. induction boxes as [|[[[x_min y_min] x_max] y_max] boxes IH];
    intros i acc; simpl; [by left|].
  unfold Py.index. destruct (scores !! i) as [s|] eqn:Hs; simpl; [|done].
  apply lookup_lt_Some in Hs. intros Hrest. right.
  assert (∃ acc', Py.for_each (Py.enumerate_from (S i) boxes)
            (display_body threshold scores) acc' = Ok out) as [acc' Hrest'].
  { destruct (score_gt s threshold); simpl in Hrest; eauto. }
  apply IH in Hrest' as [->|?]; simpl; lia.
Qed.
End short.

Lemma collect_short_scores (threshold : Q) (all_predictions : list tile_prediction)
    (acc : list row) :
  Exists short_scores all_predictions →
  Py.for_each all_predictions (collect_tile threshold) acc = Raise IndexError.
Proof.
  intros Hshort. revert acc.
  induction Hshort as [tp tps Htp | tp tps _ IH]; intros acc; simpl;
    destruct tp as [[[[labels boxes] scores] tile_x] tile_y];
    rewrite collect_tile_body; unfold Py.enumerate;
    destruct (Py.for_each _ _ _) as [out|e] eqn:Hloop; simpl.
  - apply collect_loop_returns in Hloop as [->|Hlen]; simpl in Htp; lia.
  - by apply collect_loop_raises in Hloop as ->.
  - apply IH.
  - by apply collect_loop_raises in Hloop as ->.
Qed.

Lemma display_short_scores (threshold : Q) (all_predictions : list tile_prediction)
    (acc : list Rectangle) :
  Exists short_scores all_predictions →
  Py.for_each all_predictions
    (fun '(labels, boxes, scores, tile_x, tile_y) patches =>
       let adjusted_boxes := adjust_boxes boxes tile_x tile_y in
       Py.for_each (Py.enumerate adjusted_boxes)
         (fun '(i, box) patches =>
            let! s := Py.index scores i in
            if score_gt s threshold then
              let '(x_min, y_min, x_max, y_max) := box in
              let rect := mkRectangle (x_min, y_min) (x_max - x_min) (y_max - y_min) in
              Ok (patches ++ [rect])
            else Ok patches)
         patches) acc = Raise IndexError.
Proof.
  intros Hshort. revert acc.
  induction Hshort as [tp tps Htp | tp tps _ IH]; intros acc; simpl;
    destruct tp as [[[[labels boxes] scores] tile_x] tile_y];
    rewrite (for_each_ext _ _ (display_body threshold scores))
      by (by intros [i [[[??]?]?]] s _);
    unfold Py.enumerate;
    destruct (Py.for_each _ _ _) as [out|e] eqn:Hloop; simpl.
  - apply display_loop_returns in Hloop as [Hnil|Hlen]; simpl in Htp.
    + apply (f_equal length) in Hnil. rewrite adjust_boxes_fmap, length_fmap in Hnil.
      simpl in Hnil. lia.
    + rewrite adjust_boxes_fmap, length_fmap in Hlen. lia.
  - by apply display_loop_raises in Hloop as ->.
  - apply IH.
  - by apply display_loop_raises in Hloop as ->.
Qed.

(** ** [transform_polygon] *)

(** X11: [transform_polygon] reads the first and the third coordinate of
    the ring and nothing else: a geometry with fewer than three coordinates
    raises [IndexError], and any other gives the box spanned by the images
    of these two. *)
Theorem transform_polygon_reads_two_corners (geometry : Shapely.Polygon)
    (T : Affine.t) :
  ((length geometry < 3)%nat → transform_polygon geometry T = Raise IndexError) ∧
  (∀ p0 p1 p2 rest,
     geometry = p0 :: p1 :: p2 :: rest →
     transform_polygon geometry T =
     Ok (Shapely.box (Affine.apply T p0).1 (Affine.apply T p0).2
                     (Affine.apply T p2).1 (Affine.apply T p2).2)).
Proof.
  split.
  - intros Hlen. destruct geometry as [|p0 [|p1 [|p2 rest]]]; simpl in Hlen;
      [done|done|done|lia].
  - by intros p0 p1 p2 rest ->.
Qed.

(** X12: under a transform without rotation or shear ([b = d = 0]) the
    polygon [transform_polygon] makes of a box is the image of the box's
    four corners, the ring running the other way round from the corner
    [(x_min, y_min)]. *)
Theorem transform_polygon_of_box (x_min y_min x_max y_max : Q) (T : Affine.t) :
  (Affine.b T == 0)%Q → (Affine.d T == 0)%Q →
  ∃ g,
    transform_polygon (Shapely.box x_min y_min x_max y_max) T = Ok g ∧
    polygon_eq g
      (Affine.apply T <$> [(x_min, y_min); (x_min, y_max); (x_max, y_max);
                           (x_max, y_min); (x_min, y_min)]).
Proof.
  intros Hb Hd. eexists. split; [reflexivity|].
  unfold polygon_eq, point_eq. simpl.
  repeat constructor; simpl; rewrite ?Hb, ?Hd; ring.
Qed.

(** ** The export *)

Section export_more.
Variables (all_predictions : list tile_prediction)
          (image_path output_shapefile : string) (threshold : Q) (fs : store).

(** X14: every layer the export writes has at least one feature, declares
    EPSG:32611, and has for each geometry a closed ring of five coordinates
    around an axis-parallel rectangle, whatever the raster's transform. *)
Theorem export_layer_shape (fs' : store) (layer : Layer) :
  create_georeferenced_shapefile all_predictions image_path output_shapefile
    threshold fs = Ok fs' →
  fs' !! output_shapefile = Some (VectorFile layer) →
  features layer ≠ [] ∧
  layer_crs layer = Some "EPSG:32611"%string ∧
  Forall (λ f, ∃ x0 y0 x1 y1 : Q,
               geometry f = [(x1, y0); (x1, y1); (x0, y1); (x0, y0); (x1, y0)])
         (features layer).
Proof.
  intros (image & c & T & polygons & feats & _ & -> & _ & Hne & HF & ->)%export_inv.
  rewrite lookup_insert_eq. intros [= <-]. simpl. split_and!.
  - intros ->. apply Forall2_nil_inv_r in HF. done.
  - done.
  - eapply Forall2_Forall_r; [exact HF|]. apply Forall_forall.
    intros r _ f (Hg & _ & _). unfold transform_polygon in Hg.
    destruct (Py.index _ 0) as [p0|]; simpl in Hg; [|done].
    destruct (Py.index _ 2) as [p2|]; simpl in Hg; [|done].
    injection Hg as <-. by eexists _, _, _, _.
Qed.

(** X15: an export that finds a tile with fewer scores than boxes raises
    [IndexError] and writes nothing, and so does the overlay. *)
Theorem short_scores_raise_IndexError (image : PIL.Image) (crs : option CRS)
    (T : Affine.t) :
  fs !! image_path = Some (RasterFile image crs T) →
  Exists short_scores all_predictions →
  create_georeferenced_shapefile all_predictions image_path output_shapefile
    threshold fs = Raise IndexError ∧
  display_original_image_with_boxes image_path all_predictions threshold fs =
    Raise IndexError.
Proof.
  intros Hfile Hshort. split.
  - unfold create_georeferenced_shapefile, IO.rasterio_open. rewrite Hfile. simpl.
    by rewrite collect_short_scores.
  - unfold display_original_image_with_boxes, IO.Image_open. rewrite Hfile. simpl.
    by rewrite display_short_scores.
Qed.

Hypothesis wf : Forall well_formed all_predictions.

(** X16: raising the threshold only removes features. For two exports
    that are given the same prediction values, with thresholds
    [threshold <= threshold'], the layer written for [threshold'] holds the
    features of the layer written for [threshold] whose score is at least
    [threshold'], in the same order. (A second export of tensors that a
    first export has shifted in place is not given the same values.) *)
Theorem export_is_monotone_in_threshold (threshold' : Q) (image : PIL.Image)
    (T : Affine.t) :
  fs !! image_path = Some (RasterFile image (Some "EPSG:32611"%string) T) →
  (threshold <= threshold')%Q →
  retained threshold' all_predictions ≠ [] →
  ∃ layer layer',
    create_georeferenced_shapefile all_predictions image_path output_shapefile
      threshold fs = Ok (<[output_shapefile := VectorFile layer]> fs) ∧
    create_georeferenced_shapefile all_predictions image_path output_shapefile
      threshold' fs = Ok (<[output_shapefile := VectorFile layer']> fs) ∧
    features layer' =
      List.filter (λ f, score_ge (score f) threshold') (features layer).
Proof.
  intros Hfile Hle Hne.
  assert (Hfilter : retained threshold' all_predictions =
    List.filter (λ d, score_ge (d_score d) threshold')
                (retained threshold all_predictions)).
  { unfold retained. induction (all_detections all_predictions) as [|d ds IH];
      simpl; [done|].
    destruct (score_ge (d_score d) threshold') eqn:Hge'.
    - assert (score_ge (d_score d) threshold = true) as ->.
      { unfold score_ge in *. apply Qle_bool_iff. apply Qle_bool_iff in Hge'.
        by eapply Qle_trans. }
      simpl. rewrite Hge'. by f_equal.
    - destruct (score_ge (d_score d) threshold); simpl; [by rewrite Hge'|done]. }
  assert (Hne0 : retained threshold all_predictions ≠ []).
  { intros Hnil. rewrite Hnil in Hfilter. done. }
  eexists _, _. split; [by eapply export_writes_retained|].
  split; [by eapply export_writes_retained|]. simpl.
  rewrite Hfilter. clear.
  induction (retained threshold all_predictions) as [|d ds IH]; simpl; [done|].
  assert (score (geo_row T d) = d_score d) as ->
    by (by destruct d as [l [[[??]?]?] s]).
  destruct (score_ge (d_score d) threshold'); csimpl; by rewrite IH.
Qed.

(** X17: the overlay draws, in order, the collected detections whose score
    is not the threshold itself: every detection drawn is exported, and the
    two agree when no score equals the threshold. *)
Theorem displayed_are_exported (image : PIL.Image) (crs : option CRS)
    (T : Affine.t) :
  fs !! image_path = Some (RasterFile image crs T) →
  display_original_image_with_boxes image_path all_predictions threshold fs =
    Ok (rect_of <$> List.filter (λ d, score_gt (d_score d) threshold)
                      (retained threshold all_predictions)) ∧
  (∀ d, In d (displayed threshold all_predictions) →
        In d (retained threshold all_predictions)) ∧
  (Forall (λ d, ¬ (d_score d == threshold)%Q) (all_detections all_predictions) →
   displayed threshold all_predictions = retained threshold all_predictions).
Proof.
  intros Hfile.
  assert (Himp : ∀ s, score_gt s threshold = true → score_ge s threshold = true).
  { intros s. unfold score_gt, score_ge. rewrite negb_true_iff.
    rewrite <- not_true_iff_false, !Qle_bool_iff. intros Hn.
    apply Qlt_le_weak. by apply Qnot_le_lt. }
  split_and!.
  - unfold display_original_image_with_boxes, IO.Image_open. rewrite Hfile. simpl.
    rewrite display_all_spec by done. simpl. do 2 f_equal.
    unfold displayed, retained.
    induction (all_detections all_predictions) as [|d ds IH]; simpl; [done|].
    destruct (score_gt (d_score d) threshold) eqn:Hgt.
    + rewrite (Himp _ Hgt). simpl. rewrite Hgt. by f_equal.
    + destruct (score_ge (d_score d) threshold); simpl; [by rewrite Hgt|done].
  - intros d [Hd Hlt]%displayed_spec. apply retained_spec.
    split; [done|]. by apply Qlt_le_weak.
  - unfold displayed, retained.
    induction 1 as [|d ds Hd _ IH]; simpl; [done|]. rewrite IH.
    destruct (score_gt (d_score d) threshold) eqn:Hgt; [by rewrite (Himp _ Hgt)|].
    destruct (score_ge (d_score d) threshold) eqn:Hge; [|done].
    exfalso. apply Hd. unfold score_gt, score_ge in *.
    apply negb_false_iff in Hgt. apply Qle_bool_iff in Hgt, Hge.
    by apply Qle_antisym.
Qed.

(** X18: with a raster in another CRS than EPSG:32611, or in none, the
    export raises [ValueError] and writes nothing: when it sets the CRS if
    it has detections to write, when it builds the frame if it has none. *)
Theorem export_in_another_crs_raises (image : PIL.Image) (crs : option CRS)
    (T : Affine.t) :
  fs !! image_path = Some (RasterFile image crs T) →
  crs ≠ Some "EPSG:32611"%string →
  create_georeferenced_shapefile all_predictions image_path output_shapefile
    threshold fs = Raise ValueError.
Proof.
  intros Hfile Hcrs.
  unfold create_georeferenced_shapefile, IO.rasterio_open. rewrite Hfile. simpl.
  rewrite collect_all_spec by done. simpl.
  destruct (retained threshold all_predictions) as [|d ds]; [done|].
  change (row_of <$> d :: ds) with (row_of d :: (row_of <$> ds)). simpl.
  change (row_of d :: (row_of <$> ds)) with (row_of <$> d :: ds).
  rewrite apply_geometry_rows. cbn [Py.bind]. unfold Geopandas.set_crs.
  destruct crs as [c|]; [|done]. cbn [Geopandas.crs].
  destruct (String.eqb_spec "EPSG:32611" c) as [<-|]; done.
Qed.
End export_more.

(** X19: the overlay never reads the labels: predictions that differ in
    their labels only, whatever the number of labels, are drawn alike. *)
Theorem display_does_not_read_labels (all_predictions all_predictions' :
    list tile_prediction) (image_path : string) (threshold : Q) (fs : store) :
  Forall2 same_but_labels all_predictions all_predictions' →
  display_original_image_with_boxes image_path all_predictions threshold fs =
  display_original_image_with_boxes image_path all_predictions' threshold fs.
Proof.
  intros Hsame. unfold display_original_image_with_boxes.
  destruct (IO.Image_open image_path fs) as [image|]; simpl; [|done].
  match goal with |- Py.for_each _ ?b _ = _ => set (body := b) end.
  generalize (@nil Rectangle).
  induction Hsame as [|tp tp' tps tps' Htp _ IH]; intros acc; simpl; [done|].
  destruct tp as [[[[labels boxes] scores] tile_x] tile_y].
  destruct tp' as [[[[labels' boxes'] scores'] tile_x'] tile_y'].
  destruct Htp as (<- & <- & <- & <-).
  assert (body (labels, boxes, scores, tile_x, tile_y) acc =
          body (labels', boxes, scores, tile_x, tile_y) acc) as -> by done.
  destruct (body _ acc); simpl; [apply IH|done].
Qed.

(** ** The cells around the pipeline *)

(** X20: the project cell selects the first project of the list whose id
    is the one looked for, and leaves [selected_project] at [None] exactly
    when no project has that id. *)
Theorem select_project_finds_the_first (projects : list D2S.Project)
    (project_id : string) :
  match select_project projects project_id with
  | Some project =>
      ∃ before after,
        projects = before ++ project :: after ∧
        D2S.id project = project_id ∧
        Forall (λ p, D2S.id p ≠ project_id) before
  | None => Forall (λ p, D2S.id p ≠ project_id) projects
  end.
Proof.
  induction projects as [|p projects IH]; simpl; [done|].
  destruct (String.eqb_spec (D2S.id p) project_id) as [Heq|Hne].
  - by exists [], projects.
  - destruct (select_project projects project_id) as [project|].
    + destruct IH as (before & after & -> & Hid & Hbefore).
      exists (p :: before), after. split_and!; [done|done|by constructor].
    + by constructor.
Qed.

Lemma freeze_all_but_heads_fmap (named_parameters : list parameter) :
  freeze_all_but_heads named_parameters =
  (named_parameters,
   (λ np : parameter,
      (np.1, (np.2 && (str_contains "roi_heads" np.1 || str_contains "rpn" np.1))%bool))
     <$> named_parameters).
Proof.
  unfold freeze_all_but_heads.
  enough (Hgen : ∀ printed updated,
    foldl (λ s np, freeze_body np s) (printed, updated) named_parameters =
    (printed ++ named_parameters,
     updated ++ ((λ np : parameter,
        (np.1, (np.2 && (str_contains "roi_heads" np.1 || str_contains "rpn" np.1))%bool))
       <$> named_parameters))) by apply (Hgen [] []).
  induction named_parameters as [|[name requires_grad] ps IH];
    intros printed updated; simpl.
  - by rewrite !app_nil_r.
  - destruct (str_contains "roi_heads" name), (str_contains "rpn" name); simpl;
      rewrite IH, <- !app_assoc; simpl;
      rewrite ?andb_true_r, ?andb_false_r; done.
Qed.

(** X21: the freezing cell prints every parameter with the flag it had,
    keeps the names and their order, and leaves a parameter trainable
    exactly when it was trainable and its name contains [roi_heads] or
    [rpn]; it never makes a parameter trainable, and running the cell again
    changes no flag. *)
Theorem freeze_keeps_the_heads_trainable (named_parameters : list parameter) :
  let '(printed, updated) := freeze_all_but_heads named_parameters in
  printed = named_parameters ∧
  fst <$> updated = fst <$> named_parameters ∧
  Forall2 (λ before after : parameter,
             after.2 = (before.2 && (str_contains "roi_heads" before.1 ||
                                     str_contains "rpn" before.1))%bool)
          named_parameters updated ∧
  Forall2 (λ before after : parameter, after.2 = true → before.2 = true)
          named_parameters updated ∧
  (freeze_all_but_heads updated).2 = updated.
Proof.
  rewrite freeze_all_but_heads_fmap. split_and!.
  - done.
  - rewrite <- list_fmap_compose. by apply list_fmap_ext.
  - apply Forall2_fmap_r, Forall_Forall2_diag, Forall_forall. by intros [??] _.
  - apply Forall2_fmap_r, Forall_Forall2_diag, Forall_forall.
    intros [name rg] _. simpl. by intros [? _]%andb_true_iff.
  - rewrite freeze_all_but_heads_fmap. simpl. rewrite <- list_fmap_compose.
    apply list_fmap_ext. intros _ [name rg] _. simpl. f_equal.
    by destruct rg, (str_contains "roi_heads" name), (str_contains "rpn" name).
Qed.

(** ** The further theorems at the sample inputs *)

Lemma sample_palette_disk :
  Sample2.palette_disk !! "palette.tif"%string =
  Some (RasterFile Sample2.palette None Affine.identity).
Proof. vm_compute. reflexivity. Defined.

Lemma sample_zone12_disk :
  Sample2.zone12_disk !! "ortho.tif"%string =
  Some (RasterFile Sample.ortho (Some "EPSG:32612"%string) Sample.utm).
Proof. vm_compute. reflexivity. Defined.

Lemma sample_crop_runs :
  ∃ tiles fs',
    crop_image_into_tiles "ortho.tif" 1024 "cropped_tiles" Sample.disk =
    Ok (tiles, fs').
Proof.
  apply (crop_total "ortho.tif" "cropped_tiles" 1024 Sample.disk Sample.ortho
           (Some "EPSG:32611"%string) Sample.utm sample_disk_ortho eq_refl).
  vm_compute. eauto.
Defined.

Lemma sample_image_is_no_tile (k : nat) :
  "ortho.tif"%string ≠ tile_path "cropped_tiles" (Z.of_nat k).
Proof. unfold tile_path, Py.path_join, tile_name. simpl. discriminate. Defined.

Lemma crop_unwritable_mode_raises_witness :
  crop_image_into_tiles "palette.tif" 2 "cropped_tiles" Sample2.palette_disk =
  Raise OSError.
Proof.
  apply (crop_unwritable_mode_raises "palette.tif" "cropped_tiles" 2
           Sample2.palette_disk Sample2.palette None Affine.identity 4 4
           sample_palette_disk eq_refl eq_refl eq_refl eq_refl).
  vm_compute. reflexivity.
Defined.

Lemma crop_tile_count_witness :
  ∃ tiles fs',
    crop_image_into_tiles "ortho.tif" 1024 "cropped_tiles" Sample.disk =
      Ok (tiles, fs') ∧
    Z.of_nat (length tiles) = 4.
Proof.
  destruct sample_crop_runs as (tiles & fs' & Hrun).
  exists tiles, fs'. split; [exact Hrun|].
  apply (crop_tile_count "ortho.tif" "cropped_tiles" 1024 Sample.disk Sample.ortho
           (Some "EPSG:32611"%string) Sample.utm 2000 1500
           sample_disk_ortho eq_refl eq_refl tiles fs' eq_refl eq_refl Hrun).
Defined.

Lemma crop_tile_sizes_witness :
  ∃ tiles fs',
    crop_image_into_tiles "ortho.tif" 1024 "cropped_tiles" Sample.disk =
      Ok (tiles, fs') ∧
    ∀ k tile x0 y0 x1 y1,
      tiles !! k = Some tile →
      tile_extent fs' tile = Some (x0, y0, x1, y1) →
      0 < x1 - x0 <= 1024 ∧ 0 < y1 - y0 <= 1024.
Proof.
  destruct sample_crop_runs as (tiles & fs' & Hrun).
  exists tiles, fs'. split; [exact Hrun|].
  intros k tile x0 y0 x1 y1 Hk Hext.
  destruct (crop_tile_sizes "ortho.tif" "cropped_tiles" 1024 Sample.disk
              Sample.ortho (Some "EPSG:32611"%string) Sample.utm 2000 1500
              sample_disk_ortho eq_refl eq_refl tiles fs' Hrun
              k tile x0 y0 x1 y1 Hk Hext)
    as (_ & _ & _ & _ & _ & _ & _ & Hw & Hh & _).
  split; [exact Hw | exact Hh].
Defined.

Lemma crop_single_tile_witness :
  ∃ tiles fs',
    crop_image_into_tiles "ortho.tif" 4096 "cropped_tiles" Sample.disk =
      Ok (tiles, fs') ∧
    tiles = [(tile_path "cropped_tiles" 0, (0, 0))] ∧
    tile_extent fs' (tile_path "cropped_tiles" 0, (0, 0)) =
      Some (0, 0, 2000, 1500).
Proof.
  destruct (crop_total "ortho.tif" "cropped_tiles" 4096 Sample.disk Sample.ortho
              (Some "EPSG:32611"%string) Sample.utm sample_disk_ortho eq_refl)
    as (tiles & fs' & Hrun); [vm_compute; eauto|].
  exists tiles, fs'. split; [exact Hrun|].
  apply (crop_single_tile "ortho.tif" "cropped_tiles" 4096 Sample.disk
           Sample.ortho (Some "EPSG:32611"%string) Sample.utm 2000 1500
           sample_disk_ortho eq_refl eq_refl tiles fs'); [lia|lia|exact Hrun].
Defined.

Lemma crop_writes_tile_paths_only_witness :
  ∃ tiles fs',
    crop_image_into_tiles "ortho.tif" 1024 "cropped_tiles" Sample.disk =
      Ok (tiles, fs') ∧
    fs' !! "ortho.tif"%string = Sample.disk !! "ortho.tif"%string.
Proof.
  destruct sample_crop_runs as (tiles & fs' & Hrun).
  exists tiles, fs'. split; [exact Hrun|].
  destruct (crop_writes_tile_paths_only "ortho.tif" "cropped_tiles" 1024
              Sample.disk Sample.ortho (Some "EPSG:32611"%string) Sample.utm
              2000 1500 sample_disk_ortho eq_refl eq_refl tiles fs' Hrun)
    as [_ Hother].
  apply Hother. intros k _. apply sample_image_is_no_tile.
Defined.

Lemma crop_again_changes_nothing_witness :
  ∃ tiles fs',
    crop_image_into_tiles "ortho.tif" 1024 "cropped_tiles" Sample.disk =
      Ok (tiles, fs') ∧
    crop_image_into_tiles "ortho.tif" 1024 "cropped_tiles" fs' = Ok (tiles, fs').
Proof.
  destruct sample_crop_runs as (tiles & fs' & Hrun).
  exists tiles, fs'. split; [exact Hrun|].
  apply (crop_again_changes_nothing "ortho.tif" "cropped_tiles" 1024 Sample.disk
           Sample.ortho (Some "EPSG:32611"%string) Sample.utm 2000 1500
           sample_disk_ortho eq_refl eq_refl tiles fs' Hrun).
  rewrite <- sample_disk_ortho.
  apply (crop_other_paths "ortho.tif" "cropped_tiles" 1024 Sample.disk
           Sample.ortho (Some "EPSG:32611"%string) Sample.utm 2000 1500
           sample_disk_ortho eq_refl eq_refl tiles fs' "ortho.tif" Hrun).
  intros k _. apply sample_image_is_no_tile.
Defined.

Lemma predictions_follow_the_grid_witness :
  ∃ tiles fs' all_predictions,
    crop_image_into_tiles "ortho.tif" 1024 "cropped_tiles" Sample.disk =
      Ok (tiles, fs') ∧
    get_predictions_for_tiles tiles Sample2.one_lettuce 0.15 fs' =
      Ok all_predictions ∧
    (λ tp : tile_prediction, (tp.1.2, tp.2)) <$> all_predictions =
      [(0, 0); (1024, 0); (0, 1024); (1024, 1024)].
Proof.
  destruct (predictions_follow_the_grid "ortho.tif" "cropped_tiles" 1024
              Sample.disk Sample.ortho (Some "EPSG:32611"%string) Sample.utm
              2000 1500 sample_disk_ortho eq_refl eq_refl Sample2.one_lettuce
              0.15%Q)
    as (tiles & fs' & all_predictions & Hrun & Hpred & Hgrid);
    [vm_compute; eauto|].
  exists tiles, fs', all_predictions. split; [exact Hrun|]. split; [exact Hpred|].
  assert (Hboxes : grid_boxes 2000 1500 1024 =
    [(0, 0, 1024, 1024); (1024, 0, 2000, 1024);
     (0, 1024, 1024, 1500); (1024, 1024, 2000, 1500)]) by (vm_compute; reflexivity).
  rewrite Hboxes in Hgrid.
  repeat match goal with
         | H : Forall2 _ (_ :: _) _ |- _ =>
             apply Forall2_cons_inv_l in H as (? & ? & (? & _ & ->) & H & ->)
         | H : Forall2 _ [] _ |- _ => apply Forall2_nil_inv_l in H as ->
         end.
  reflexivity.
Defined.

Lemma get_predictions_returns_iff_tiles_open_witness :
  (∃ all_predictions,
     get_predictions_for_tiles [("ortho.tif"%string, (0, 0))]
       Sample2.one_lettuce 0.15 Sample.disk = Ok all_predictions) ∧
  ¬ (∃ all_predictions,
       get_predictions_for_tiles [("missing.jpg"%string, (0, 0))]
         Sample2.one_lettuce 0.15 Sample.disk = Ok all_predictions).
Proof.
  split.
  - apply (get_predictions_returns_iff_tiles_open
             [("ortho.tif"%string, (0, 0))] Sample2.one_lettuce 0.15 Sample.disk).
    repeat constructor. exists Sample.ortho. vm_compute. reflexivity.
  - intros Hrun.
    apply (get_predictions_returns_iff_tiles_open
             [("missing.jpg"%string, (0, 0))] Sample2.one_lettuce 0.15 Sample.disk)
      in Hrun.
    apply Forall_inv in Hrun as [img Hopen]. vm_compute in Hopen. discriminate.
Defined.

Lemma adjusted_boxes_stay_in_their_tile_witness :
  Forall (λ b, bbox_within b (1024, 0, 2000, 1024) ∧
               bbox_within b (0, 0, 2000, 1500))
         (adjust_boxes [(10, 20, 30, 40)%Q] 1024 0).
Proof.
  apply (adjusted_boxes_stay_in_their_tile 2000 1500 1024 1024 0 2000 1024
           [(10, 20, 30, 40)%Q]).
  - lia.
  - vm_compute. right. left.
  - repeat constructor; vm_compute; discriminate.
Defined.

Lemma transform_polygon_reads_two_corners_witness :
  transform_polygon [(0, 0); (1, 1)]%Q Sample.utm = Raise IndexError ∧
  transform_polygon [(0, 0); (7, 7); (1, 1); (9, 9)]%Q Affine.identity =
  transform_polygon [(0, 0); (8, 8); (1, 1)]%Q Affine.identity.
Proof.
  split.
  - apply (transform_polygon_reads_two_corners [(0, 0); (1, 1)]%Q Sample.utm).
    simpl. lia.
  - destruct (transform_polygon_reads_two_corners
                [(0, 0); (7, 7); (1, 1); (9, 9)]%Q Affine.identity) as [_ H1].
    destruct (transform_polygon_reads_two_corners
                [(0, 0); (8, 8); (1, 1)]%Q Affine.identity) as [_ H2].
    rewrite (H1 _ _ _ _ eq_refl), (H2 _ _ _ _ eq_refl). reflexivity.
Defined.

Lemma transform_polygon_of_box_witness :
  ∃ g,
    transform_polygon (Shapely.box 100 100 200 200) Sample.utm = Ok g ∧
    polygon_eq g
      (Affine.apply Sample.utm <$>
         [(100, 100); (100, 200); (200, 200); (200, 100); (100, 100)]%Q).
Proof.
  apply (transform_polygon_of_box 100 100 200 200 Sample.utm); reflexivity.
Defined.

Lemma sample_export_runs :
  create_georeferenced_shapefile Sample.three "ortho.tif" "lettuce.shp" 0.15
    Sample.disk =
  Ok (<["lettuce.shp"%string :=
          VectorFile (mkLayer (geo_row Sample.utm <$> retained 0.15 Sample.three)
                              (Some "EPSG:32611"%string))]> Sample.disk).
Proof.
  apply (export_writes_retained Sample.three "ortho.tif" "lettuce.shp" 0.15
           Sample.disk sample_three_well_formed Sample.ortho Sample.utm
           sample_disk_ortho).
  vm_compute. discriminate.
Defined.

Lemma export_layer_shape_witness :
  ∃ fs' layer,
    create_georeferenced_shapefile Sample.three "ortho.tif" "lettuce.shp" 0.15
      Sample.disk = Ok fs' ∧
    fs' !! "lettuce.shp"%string = Some (VectorFile layer) ∧
    features layer ≠ [] ∧ layer_crs layer = Some "EPSG:32611"%string.
Proof.
  eexists _, _. split; [exact sample_export_runs|].
  split; [apply lookup_insert_eq|].
  destruct (export_layer_shape Sample.three "ortho.tif" "lettuce.shp" 0.15
              Sample.disk _ _ sample_export_runs
              (lookup_insert_eq _ _ _)) as (Hne & Hcrs & _).
  split; [exact Hne | exact Hcrs].
Defined.

Lemma short_scores_raise_IndexError_witness :
  create_georeferenced_shapefile Sample2.ragged "ortho.tif" "lettuce.shp" 0.15
    Sample.disk = Raise IndexError ∧
  display_original_image_with_boxes "ortho.tif" Sample2.ragged 0.15 Sample.disk =
    Raise IndexError.
Proof.
  apply (short_scores_raise_IndexError Sample2.ragged "ortho.tif" "lettuce.shp"
           0.15 Sample.disk Sample.ortho (Some "EPSG:32611"%string) Sample.utm
           sample_disk_ortho).
  left. simpl. lia.
Defined.

Lemma export_is_monotone_in_threshold_witness :
  ∃ layer layer',
    create_georeferenced_shapefile Sample.three "ortho.tif" "lettuce.shp" 0.15
      Sample.disk = Ok (<["lettuce.shp"%string := VectorFile layer]> Sample.disk) ∧
    create_georeferenced_shapefile Sample.three "ortho.tif" "lettuce.shp" 0.2
      Sample.disk = Ok (<["lettuce.shp"%string := VectorFile layer']> Sample.disk) ∧
    features layer' = List.filter (λ f, score_ge (score f) 0.2) (features layer).
Proof.
  apply (export_is_monotone_in_threshold Sample.three "ortho.tif" "lettuce.shp"
           0.15 Sample.disk sample_three_well_formed 0.2 Sample.ortho Sample.utm
           sample_disk_ortho).
  - vm_compute. discriminate.
  - vm_compute. discriminate.
Defined.

Lemma displayed_are_exported_witness :
  display_original_image_with_boxes "ortho.tif" Sample.three 0.15 Sample.disk =
    Ok (rect_of <$> List.filter (λ d, score_gt (d_score d) 0.15)
                      (retained 0.15 Sample.three)) ∧
  length (displayed 0.15 Sample.three) = 1%nat ∧
  length (retained 0.15 Sample.three) = 2%nat.
Proof.
  destruct (displayed_are_exported Sample.three "ortho.tif" 0.15 Sample.disk
              sample_three_well_formed Sample.ortho (Some "EPSG:32611"%string)
              Sample.utm sample_disk_ortho) as (Hdisplay & _ & _).
  split; [exact Hdisplay|]. split; reflexivity.
Defined.

Lemma export_in_another_crs_raises_witness :
  create_georeferenced_shapefile Sample.three "ortho.tif" "lettuce.shp" 0.15
    Sample2.zone12_disk = Raise ValueError.
Proof.
  apply (export_in_another_crs_raises Sample.three "ortho.tif" "lettuce.shp" 0.15
           Sample2.zone12_disk sample_three_well_formed Sample.ortho
           (Some "EPSG:32612"%string) Sample.utm sample_zone12_disk).
  discriminate.
Defined.

Lemma display_does_not_read_labels_witness :
  display_original_image_with_boxes "ortho.tif" Sample.three 0.15 Sample.disk =
  display_original_image_with_boxes "ortho.tif"
    [([], [(10, 20, 30, 40); (1, 2, 3, 4); (5, 6, 7, 8)]%Q,
      [0.10; 0.15; 0.20]%Q, 1024, 0)] 0.15 Sample.disk.
Proof.
  apply display_does_not_read_labels. repeat constructor.
Defined.
